(** * Notion MCP server: the API client and the tool dispatcher of [main.py]

    A shallow embedding of [src/main.py] and the properties of its
    retry loop, payload builders, credential resolution and dispatcher.

    Python values are embedded as the inductive [value]; a [dict] is an
    association list in insertion order.  Floats are left out.  Strings
    are sequences of ASCII characters.  The HTTP exchanges of the
    [requests] library are a script: the list of what each successive
    call of [requests.get/post/patch/delete] meets (an exception of the
    library or a response).  A run returns its result together with the
    events it produced, in order: requests sent, sleeps, log lines. *)

From Stdlib Require Import ZArith String Ascii List Bool Lia DecimalString.
Import ListNotations.
Set Warnings "-register-all".
Local Open Scope string_scope.
Local Open Scope Z_scope.

(** ** Python values *)

Module Py.

Inductive value : Type :=
| VNone
| VBool (b : bool)
| VInt (z : Z)
| VStr (s : string)
| VList (l : list value)
| VDict (d : list (string * value)).

(** The classes of [requests.exceptions] the code can meet; all of them
    derive from [RequestException]. *)
Inductive requests_error : Type :=
| ConnectionError
| Timeout
| HTTPError
| JSONDecodeError.

(** Exceptions; every one of them derives from [Exception]. *)
Inductive exn : Type :=
| KeyError (key : string)
| TypeError (msg : string)
| ValueError (msg : string)
| OverflowError (msg : string)
| AttributeError (msg : string)
| RequestException (cls : requests_error) (msg : string)
| NotionAPIError (msg : string)
| NotionAuthError (msg : string).

(** What a piece of Python code does: it returns, it raises, or it is
    still waiting for an HTTP exchange the script does not hold. *)
Inductive run (A : Type) : Type :=
| Return (a : A)
| Raise (e : exn)
| Pending.
Arguments Return {A} a.
Arguments Raise {A} e.
Arguments Pending {A}.

Definition bind {A B} (m : run A) (k : A -> run B) : run B :=
  match m with
  | Return a => k a
  | Raise e => Raise e
  | Pending => Pending
  end.

Notation "x <- m ;; k" := (bind m (fun x => k))
  (at level 61, m at next level, right associativity).

(** *** Text *)

Definition string_of_Z (z : Z) : string := NilZero.string_of_int (Z.to_int z).

Definition is_lower (c : ascii) : bool :=
  let n := nat_of_ascii c in (97 <=? n)%nat && (n <=? 122)%nat.
Definition is_upper (c : ascii) : bool :=
  let n := nat_of_ascii c in (65 <=? n)%nat && (n <=? 90)%nat.
Definition upper_char (c : ascii) : ascii :=
  if is_lower c then ascii_of_nat (nat_of_ascii c - 32) else c.
Definition lower_char (c : ascii) : ascii :=
  if is_upper c then ascii_of_nat (nat_of_ascii c + 32) else c.

Fixpoint map_string (f : ascii -> ascii) (s : string) : string :=
  match s with
  | EmptyString => EmptyString
  | String c r => String (f c) (map_string f r)
  end.
Definition upper : string -> string := map_string upper_char.
Definition lower : string -> string := map_string lower_char.

(** [s.lstrip(c)] for a single character [c]. *)
Fixpoint lstrip (c : ascii) (s : string) : string :=
  match s with
  | String a r => if Ascii.eqb a c then lstrip c r else s
  | EmptyString => EmptyString
  end.

(** [sub in s] on strings. *)
Fixpoint contains (sub s : string) : bool :=
  prefix sub s ||
  match s with
  | EmptyString => false
  | String _ r => contains sub r
  end.

Definition hex_digit (n : nat) : ascii :=
  if (n <? 10)%nat then ascii_of_nat (48 + n) else ascii_of_nat (87 + n).
Definition hex2 (c : ascii) : string :=
  let n := nat_of_ascii c in
  String (hex_digit (n / 16)) (String (hex_digit (n mod 16)) EmptyString).

Definition printable (c : ascii) : bool :=
  let n := nat_of_ascii c in (32 <=? n)%nat && (n <=? 126)%nat.

Definition tab : ascii := ascii_of_nat 9.
Definition newline : ascii := ascii_of_nat 10.
Definition carriage : ascii := ascii_of_nat 13.
Definition backspace : ascii := ascii_of_nat 8.
Definition formfeed : ascii := ascii_of_nat 12.
Definition vtab : ascii := ascii_of_nat 11.
Definition squote : ascii := ascii_of_nat 39.
Definition dquote : ascii := ascii_of_nat 34.
Definition backslash : ascii := ascii_of_nat 92.
Definition str1 (c : ascii) : string := String c EmptyString.

Fixpoint has_char (c : ascii) (s : string) : bool :=
  match s with
  | EmptyString => false
  | String a r => Ascii.eqb a c || has_char c r
  end.

Fixpoint repr_chars (q : ascii) (s : string) : string :=
  match s with
  | EmptyString => EmptyString
  | String c r =>
      (if Ascii.eqb c backslash then String backslash (str1 backslash)
       else if Ascii.eqb c q then String backslash (str1 q)
       else if Ascii.eqb c tab then String backslash "t"
       else if Ascii.eqb c newline then String backslash "n"
       else if Ascii.eqb c carriage then String backslash "r"
       else if printable c then str1 c
       else String backslash ("x" ++ hex2 c))%string
      ++ repr_chars q r
  end.

(** [repr(s)] of a string: single quotes, unless the text holds a single
    quote and no double quote. *)
Definition repr_str (s : string) : string :=
  let q := if has_char squote s && negb (has_char dquote s)
           then dquote else squote in
  (str1 q ++ repr_chars q s ++ str1 q)%string.

Fixpoint py_repr (v : value) : string :=
  match v with
  | VNone => "None"
  | VBool true => "True"
  | VBool false => "False"
  | VInt z => string_of_Z z
  | VStr s => repr_str s
  | VList l => "[" ++ String.concat ", " (map py_repr l) ++ "]"
  | VDict d =>
      "{" ++ String.concat ", "
               (map (fun '(k, x) => repr_str k ++ ": " ++ py_repr x) d) ++ "}"
  end%string.

(** [str(v)], which is also what an f-string puts for [{v}]. *)
Definition py_str (v : value) : string :=
  match v with
  | VStr s => s
  | _ => py_repr v
  end.

(** [str(e)] of an exception. *)
Definition str_exn (e : exn) : string :=
  match e with
  | KeyError k => repr_str k
  | TypeError m | ValueError m | OverflowError m | AttributeError m
  | RequestException _ m | NotionAPIError m | NotionAuthError m => m
  end.

Definition type_name (v : value) : string :=
  match v with
  | VNone => "NoneType"
  | VBool _ => "bool"
  | VInt _ => "int"
  | VStr _ => "str"
  | VList _ => "list"
  | VDict _ => "dict"
  end.

(** *** Truth value, [==], [or], [min] *)

(** [v == s] for a string [s]. *)
Definition eq_str (v : value) (s : string) : bool :=
  match v with
  | VStr t => (t =? s)%string
  | _ => false
  end.

Definition truthy (v : value) : bool :=
  match v with
  | VNone => false
  | VBool b => b
  | VInt z => negb (z =? 0)
  | VStr s => negb (s =? "")%string
  | VList l => match l with [] => false | _ => true end
  | VDict d => match d with [] => false | _ => true end
  end.

(** Truth value of an [Optional[str]]. *)
Definition truthy_opt (o : option string) : bool :=
  match o with
  | Some s => negb (s =? "")%string
  | None => false
  end.

(** [a or b]. *)
Definition or_opt (a b : option string) : option string :=
  if truthy_opt a then a else b.

(** [min(v, 100)]: the built-in keeps [v] unless [100 < v]. *)
Definition min_100 (v : value) : run value :=
  match v with
  | VInt z => Return (if 100 <? z then VInt 100 else v)
  | VBool _ => Return v
  | _ => Raise (TypeError ("'<' not supported between instances of 'int' and '"
                           ++ type_name v ++ "'"))
  end.

(** *** [int(s)] on text *)

Definition is_space (c : ascii) : bool :=
  Ascii.eqb c " " || Ascii.eqb c tab || Ascii.eqb c newline
  || Ascii.eqb c carriage || Ascii.eqb c vtab || Ascii.eqb c formfeed.

Fixpoint lstrip_space (s : string) : string :=
  match s with
  | String a r => if is_space a then lstrip_space r else s
  | EmptyString => EmptyString
  end.

Fixpoint rev_string (acc s : string) : string :=
  match s with
  | EmptyString => acc
  | String c r => rev_string (String c acc) r
  end.

Definition strip_space (s : string) : string :=
  rev_string "" (lstrip_space (rev_string "" (lstrip_space s))).

Definition digit_of (c : ascii) : option Z :=
  let n := nat_of_ascii c in
  if (48 <=? n)%nat && (n <=? 57)%nat then Some (Z.of_nat (n - 48)) else None.

(** [sys.get_int_max_str_digits()] *)
Definition int_max_str_digits : nat := 4300.

(** The scan of a decimal literal: the value and the number of the
    digits read, and the text left where the scan stops, at the first
    character that is neither a digit nor an underscore.  [None] when
    two underscores follow each other or the scan ends on one. *)
Fixpoint scan_digits (acc : Z) (count : nat) (after_underscore : bool) (s : string)
    : option (Z * nat * string) :=
  match s with
  | EmptyString => if after_underscore then None else Some (acc, count, s)
  | String c r =>
      match digit_of c with
      | Some d => scan_digits (10 * acc + d) (S count) false r
      | None =>
          if after_underscore then None
          else if Ascii.eqb c "_" then scan_digits acc count true r
          else Some (acc, count, s)
      end
  end.

(** The literal after its sign: no leading underscore; more than 4300
    digits are refused before what follows them is looked at; then at
    least one digit and nothing after the digits. *)
Definition int_of_digits (bad : exn) (t : string) : run Z :=
  match t with
  | String "_" _ => Raise bad
  | _ =>
      match scan_digits 0 0 false t with
      | None => Raise bad
      | Some (n, count, rest) =>
          if (int_max_str_digits <? count)%nat then
            Raise (ValueError
              ("Exceeds the limit (4300 digits) for integer string conversion: value has "
               ++ string_of_Z (Z.of_nat count)
               ++ " digits; use sys.set_int_max_str_digits() to increase the limit"))
          else if (count =? 0)%nat then Raise bad
          else match rest with
               | EmptyString => Return n
               | _ => Raise bad
               end
      end
  end.

Definition int_of_str (s : string) : run Z :=
  let bad := ValueError ("invalid literal for int() with base 10: " ++ repr_str s) in
  match strip_space s with
  | String "-" r => n <- int_of_digits bad r ;; Return (- n)
  | String "+" r => int_of_digits bad r
  | t => int_of_digits bad t
  end.

(** *** Dictionaries *)

Definition dict := list (string * value).

Fixpoint lookup (k : string) (d : dict) : option value :=
  match d with
  | [] => None
  | (k', v) :: r => if (k' =? k)%string then Some v else lookup k r
  end.

(** [d.get(k)] *)
Definition get (d : dict) (k : string) : value :=
  match lookup k d with
  | Some v => v
  | None => VNone
  end.

(** [d[k]] *)
Definition subscript (d : dict) (k : string) : run value :=
  match lookup k d with
  | Some v => Return v
  | None => Raise (KeyError k)
  end.

(** [d[k] = v]: an existing key keeps its place, a new one goes last. *)
Fixpoint setitem (d : dict) (k : string) (v : value) : dict :=
  match d with
  | [] => [(k, v)]
  | (k', v') :: r =>
      if (k' =? k)%string then (k, v) :: r else (k', v') :: setitem r k v
  end.

(** [k in x] for a string [k] and any value [x]. *)
Definition py_in (k : string) (x : value) : run bool :=
  match x with
  | VDict d => Return (match lookup k d with Some _ => true | None => false end)
  | VList l => Return (existsb (fun y => eq_str y k) l)
  | VStr s => Return (contains k s)
  | _ => Raise (TypeError ("argument of type '" ++ type_name x
                           ++ "' is not iterable"))
  end.

(** [x[k]] for a string [k] and any value [x]. *)
Definition py_subscript (x : value) (k : string) : run value :=
  match x with
  | VDict d => subscript d k
  | VList _ => Raise (TypeError "list indices must be integers or slices, not str")
  | VStr _ => Raise (TypeError "string indices must be integers, not 'str'")
  | _ => Raise (TypeError ("'" ++ type_name x ++ "' object is not subscriptable"))
  end.

(** [x.get(k)] for any value [x]. *)
Definition py_get (x : value) (k : string) : run value :=
  match x with
  | VDict d => Return (get d k)
  | _ => Raise (AttributeError ("'" ++ type_name x
                                ++ "' object has no attribute 'get'"))
  end.

(** *** [json.dumps(v, indent=2)] *)

Fixpoint json_chars (s : string) : string :=
  match s with
  | EmptyString => EmptyString
  | String c r =>
      (if Ascii.eqb c dquote then String backslash (str1 dquote)
       else if Ascii.eqb c backslash then String backslash (str1 backslash)
       else if Ascii.eqb c newline then String backslash "n"
       else if Ascii.eqb c carriage then String backslash "r"
       else if Ascii.eqb c tab then String backslash "t"
       else if Ascii.eqb c backspace then String backslash "b"
       else if Ascii.eqb c formfeed then String backslash "f"
       else if printable c then str1 c
       else String backslash ("u00" ++ hex2 c))%string
      ++ json_chars r
  end.

Definition json_str (s : string) : string :=
  (str1 dquote ++ json_chars s ++ str1 dquote)%string.

Fixpoint spaces (n : nat) : string :=
  match n with
  | O => ""
  | S m => String " " (spaces m)
  end.

Definition newline_indent (level : nat) : string :=
  String newline (spaces (2 * level)).

Fixpoint json_encode (level : nat) (v : value) : string :=
  match v with
  | VNone => "null"
  | VBool true => "true"
  | VBool false => "false"
  | VInt z => string_of_Z z
  | VStr s => json_str s
  | VList l =>
      match l with
      | [] => "[]"
      | _ => "[" ++ newline_indent (S level)
             ++ String.concat ("," ++ newline_indent (S level))
                  (map (json_encode (S level)) l)
             ++ newline_indent level ++ "]"
      end
  | VDict d =>
      match d with
      | [] => "{}"
      | _ => "{" ++ newline_indent (S level)
             ++ String.concat ("," ++ newline_indent (S level))
                  (map (fun '(k, x) => json_str k ++ ": " ++ json_encode (S level) x) d)
             ++ newline_indent level ++ "}"
      end
  end%string.

Definition json_dumps_indent2 (v : value) : string := json_encode 0 v.

End Py.

(** ** The [requests] library, as far as the client uses it *)

Module Http.
Import Py.

Record request : Type := {
  req_method : string;
  req_url : string;
  req_headers : list (string * string);
  req_params : value;   (* [params=], [VNone] when not passed *)
  req_json : value      (* [json=], [VNone] when not passed *)
}.

(** [response.content] with what [response.json()] makes of it. *)
Inductive body : Type :=
| EmptyBody
| JsonBody (j : value)
| MalformedBody (err : string).

Record response : Type := {
  status_code : Z;
  reason : string;
  resp_url : string;
  resp_headers : list (string * string);
  content : body
}.

(** What one call of [requests.get/post/patch/delete] meets. *)
Inductive exchange : Type :=
| Fails (cls : requests_error) (msg : string)
| Replies (r : response).

Inductive event : Type :=
| Sent (r : request)
| Slept (seconds : Z)
| Logged (msg : string).

(** Effectful code: a result and the events produced on the way. *)
Definition io (A : Type) : Type := (run A * list event)%type.

Definition ret {A} (a : A) : io A := (Return a, []).
Definition lift {A} (r : run A) : io A := (r, []).
Definition raise {A} (e : exn) : io A := (Raise e, []).
Definition emit (ev : event) : io unit := (Return tt, [ev]).

Definition io_bind {A B} (m : io A) (k : A -> io B) : io B :=
  match fst m with
  | Return a => (fst (k a), (snd m ++ snd (k a))%list)
  | Raise e => (Raise e, snd m)
  | Pending => (Pending, snd m)
  end.

Notation "x <-- m ;; k" := (io_bind m (fun x => k))
  (at level 61, m at next level, right associativity).

(** Header names compare without case. *)
Fixpoint header_get (hs : list (string * string)) (name : string) : option string :=
  match hs with
  | [] => None
  | (k, v) :: r =>
      if (lower k =? lower name)%string then Some v else header_get r name
  end.

(** [response.raise_for_status()]: the message it builds, empty when the
    status is no error. *)
Definition http_error_msg (r : response) : string :=
  let c := status_code r in
  if (400 <=? c) && (c <? 500) then
    string_of_Z c ++ " Client Error: " ++ reason r ++ " for url: " ++ resp_url r
  else if (500 <=? c) && (c <? 600) then
    string_of_Z c ++ " Server Error: " ++ reason r ++ " for url: " ++ resp_url r
  else "".

Definition raise_for_status (r : response) : run unit :=
  if (http_error_msg r =? "")%string then Return tt
  else Raise (RequestException HTTPError (http_error_msg r)).

(** [response.json()]; since requests 2.27 a body that does not decode
    raises [requests.exceptions.JSONDecodeError]. *)
Definition response_json (r : response) : run value :=
  match content r with
  | JsonBody j => Return j
  | EmptyBody =>
      Raise (RequestException JSONDecodeError
               "Expecting value: line 1 column 1 (char 0)")
  | MalformedBody err => Raise (RequestException JSONDecodeError err)
  end.

(** [response.content] as a condition. *)
Definition has_content (r : response) : bool :=
  match content r with
  | EmptyBody => false
  | _ => true
  end.

(** The first number of seconds that no longer fits the nanosecond
    clock of [time.sleep]. *)
Definition sleep_limit : Z := 9223372037.

(** [time.sleep(n)]: the conversion to nanoseconds comes before the
    test of the sign. *)
Definition sleep (n : Z) : io unit :=
  if sleep_limit <=? Z.abs n then
    raise (OverflowError "timestamp too large to convert to C _PyTime_t")
  else if n <? 0 then raise (ValueError "sleep length must be non-negative")
  else emit (Slept n).

End Http.

(** ** [main.py] *)

Module Notion.
Import Py Http.

(** [os.environ] *)
Definition environ := list (string * string).

Fixpoint environ_get (env : environ) (k : string) : option string :=
  match env with
  | [] => None
  | (k', v) :: r => if (k' =? k)%string then Some v else environ_get r k
  end.

(** An [Optional[str]] inside an f-string, and as a value. *)
Definition fstr (o : option string) : string :=
  match o with
  | Some s => s
  | None => "None"
  end.
Definition opt_value (o : option string) : value :=
  match o with
  | Some s => VStr s
  | None => VNone
  end.

(** One call of [requests]: the request leaves, the script answers. *)
Definition call (req : request) (script : list exchange) : io response :=
  match script with
  | [] => (Pending, [Sent req])
  | Fails cls msg :: _ => (Raise (RequestException cls msg), [Sent req])
  | Replies r :: _ => (Return r, [Sent req])
  end.

Definition get_connection_credentials (env : environ)
    (id providerConfigKey : option string) (script : list exchange) : io value :=
  let base_url := environ_get env "NANGO_BASE_URL" in
  let secret_key := environ_get env "NANGO_SECRET_KEY" in
  if negb (truthy_opt base_url) || negb (truthy_opt secret_key) then
    raise (NotionAuthError
      "NANGO_BASE_URL and NANGO_SECRET_KEY environment variables must be set")
  else
    let url := fstr base_url ++ "/connection/" ++ fstr id in
    let params := VDict [("provider_config_key", opt_value providerConfigKey);
                         ("refresh_token", VStr "true")] in
    let headers := [("Authorization", "Bearer " ++ fstr secret_key)] in
    response <-- call {| req_method := "GET"; req_url := url;
                         req_headers := headers; req_params := params;
                         req_json := VNone |} script ;;
    _ <-- lift (raise_for_status response) ;;
    lift (response_json response).

Record NotionClient : Type := {
  notion_version : string;
  base_url : string;
  nango_connection_id : option string;
  nango_provider_config_key : option string;
  auth_token : value;
  headers : list (string * string)
}.

(** [except Exception as e: raise NotionAuthError(...)] *)
Definition as_auth_error {A} (m : io A) : io A :=
  match fst m with
  | Raise e =>
      (Raise (NotionAuthError
                ("Failed to get credentials from Nango: " ++ str_exn e)), snd m)
  | _ => m
  end.

Definition _get_nango_token (env : environ)
    (nango_connection_id nango_provider_config_key : option string)
    (script : list exchange) : io value :=
  as_auth_error (
    credentials <-- get_connection_credentials env nango_connection_id
                      nango_provider_config_key script ;;
    in_credentials <-- lift (py_in "credentials" credentials) ;;
    if in_credentials then
      inner <-- lift (py_subscript credentials "credentials") ;;
      lift (py_get inner "access_token")
    else
      in_token <-- lift (py_in "access_token" credentials) ;;
      if in_token then lift (py_subscript credentials "access_token")
      else raise (NotionAuthError
                    "No access token found in Nango credentials response")).

Definition default_notion_version : string := "2022-06-28".

Definition __init__ (env : environ) (auth_token : option string)
    (notion_version : string)
    (nango_connection_id nango_provider_config_key : option string)
    (script : list exchange) : io NotionClient :=
  let base_url := "https://api.notion.com/v1" in
  let nango_connection_id :=
    or_opt nango_connection_id (environ_get env "NANGO_CONNECTION_ID") in
  let nango_provider_config_key :=
    or_opt nango_provider_config_key (environ_get env "NANGO_INTEGRATION_ID") in
  token <-- (if truthy_opt auth_token then ret (opt_value auth_token)
             else if truthy_opt nango_connection_id
                     && truthy_opt nango_provider_config_key then
               _get_nango_token env nango_connection_id
                 nango_provider_config_key script
             else raise (NotionAuthError
               "Either auth_token or both nango_connection_id and nango_provider_config_key must be provided")) ;;
  ret {| notion_version := notion_version;
         base_url := base_url;
         nango_connection_id := nango_connection_id;
         nango_provider_config_key := nango_provider_config_key;
         auth_token := token;
         headers := [("Authorization", "Bearer " ++ py_str token);
                     ("Notion-Version", notion_version);
                     ("Content-Type", "application/json")] |}.

(** *** The request primitive *)

Definition max_retries : Z := 3.

(** The [if/elif] chain on [method.upper()]. *)
Definition build_request (self : NotionClient) (method url : string)
    (data params : value) : run request :=
  let m := upper method in
  let mk p j := {| req_method := m; req_url := url; req_headers := headers self;
                   req_params := p; req_json := j |} in
  if (m =? "GET")%string then Return (mk params VNone)
  else if (m =? "POST")%string then Return (mk VNone data)
  else if (m =? "PATCH")%string then Return (mk VNone data)
  else if (m =? "DELETE")%string then Return (mk VNone VNone)
  else Raise (ValueError ("Unsupported HTTP method: " ++ method)).

(** How the [try] block ends when it does not raise: [continue], or
    [return]. *)
Inductive step : Type :=
| Continue
| Result (v : value).

(** The [try] block from the answer of [requests] on. *)
Definition attempt (x : exchange) : io step :=
  match x with
  | Fails cls msg => raise (RequestException cls msg)
  | Replies response =>
      if status_code response =? 429 then
        retry_after <-- lift (match header_get (resp_headers response) "Retry-After" with
                              | Some s => int_of_str s
                              | None => Return 1
                              end) ;;
        _ <-- sleep retry_after ;;
        ret Continue
      else
        _ <-- lift (raise_for_status response) ;;
        if has_content response then
          j <-- lift (response_json response) ;; ret (Result j)
        else ret (Result (VDict []))
  end.

(** The [while] loop, one exchange of the script per turn. *)
Fixpoint retry_loop (self : NotionClient) (method url : string)
    (data params : value) (retry_count : Z) (script : list exchange) : io value :=
  if retry_count <? max_retries then
    match build_request self method url data params with
    | Raise e => raise e
    | Pending => (Pending, [])
    | Return req =>
        match script with
        | [] => (Pending, [Sent req])
        | x :: rest =>
            let again rc := retry_loop self method url data params rc rest in
            let tried := attempt x in
            match fst tried with
            | Return (Result v) => (Return v, Sent req :: snd tried)
            | Return Continue =>
                (fst (again retry_count),
                 Sent req :: snd tried ++ snd (again retry_count))%list
            | Raise (RequestException _ msg) =>
                if retry_count =? max_retries - 1 then
                  (Raise (NotionAPIError
                            ("API request failed after " ++ string_of_Z max_retries
                             ++ " retries: " ++ msg)),
                   Sent req :: snd tried)
                else
                  (fst (again (retry_count + 1)),
                   Sent req :: snd tried ++ Slept 1 :: snd (again (retry_count + 1)))%list
            | Raise e => (Raise e, Sent req :: snd tried)
            | Pending => (Pending, Sent req :: snd tried)
            end
        end
    end
  else ret VNone.

(** [f"{self.base_url}/{endpoint.lstrip('/')}"] *)
Definition endpoint_url (self : NotionClient) (endpoint : string) : string :=
  base_url self ++ "/" ++ lstrip "/" endpoint.

Definition _make_request (self : NotionClient) (method endpoint : string)
    (data params : value) (script : list exchange) : io value :=
  let url := endpoint_url self endpoint in
  let retry_count := 0 in
  retry_loop self method url data params retry_count script.

(** *** Core API methods *)

(** [if v: data[k] = v] *)
Definition set_if (data : dict) (k : string) (v : value) : dict :=
  if truthy v then setitem data k v else data.

(** [if page_size: data["page_size"] = min(page_size, 100)] *)
Definition set_page_size (data : dict) (page_size : value) : run dict :=
  if truthy page_size then
    m <- min_100 page_size ;; Return (setitem data "page_size" m)
  else Return data.

Definition get_database (self : NotionClient) (database_id : value)
    (script : list exchange) : io value :=
  _make_request self "GET" ("databases/" ++ py_str database_id) VNone VNone script.

Definition query_database_data (filter_criteria sorts start_cursor page_size : value)
    : run dict :=
  let data := [] in
  let data := set_if data "filter" filter_criteria in
  let data := set_if data "sorts" sorts in
  let data := set_if data "start_cursor" start_cursor in
  set_page_size data page_size.

Definition query_database (self : NotionClient)
    (database_id filter_criteria sorts start_cursor page_size : value)
    (script : list exchange) : io value :=
  data <-- lift (query_database_data filter_criteria sorts start_cursor page_size) ;;
  _make_request self "POST" ("databases/" ++ py_str database_id ++ "/query")
    (VDict data) VNone script.

Definition create_database (self : NotionClient) (parent title properties : value)
    (script : list exchange) : io value :=
  let data := [("parent", parent);
               ("title", VList [VDict [("type", VStr "text");
                                       ("text", VDict [("content", title)])]]);
               ("properties", properties)] in
  _make_request self "POST" "databases" (VDict data) VNone script.

Definition get_page (self : NotionClient) (page_id : value)
    (script : list exchange) : io value :=
  _make_request self "GET" ("pages/" ++ py_str page_id) VNone VNone script.

Definition create_page_data (parent properties children : value) : dict :=
  let data := [("parent", parent); ("properties", properties)] in
  set_if data "children" children.

Definition create_page (self : NotionClient) (parent properties children : value)
    (script : list exchange) : io value :=
  _make_request self "POST" "pages"
    (VDict (create_page_data parent properties children)) VNone script.

Definition update_page_data (properties archived : value) : dict :=
  let data := [("properties", properties)] in
  match archived with
  | VNone => data
  | _ => setitem data "archived" archived
  end.

Definition update_page (self : NotionClient) (page_id properties archived : value)
    (script : list exchange) : io value :=
  _make_request self "PATCH" ("pages/" ++ py_str page_id)
    (VDict (update_page_data properties archived)) VNone script.

Definition get_block_children_params (start_cursor page_size : value) : run dict :=
  let params := [] in
  let params := set_if params "start_cursor" start_cursor in
  set_page_size params page_size.

Definition get_block_children (self : NotionClient)
    (block_id start_cursor page_size : value) (script : list exchange) : io value :=
  params <-- lift (get_block_children_params start_cursor page_size) ;;
  _make_request self "GET" ("blocks/" ++ py_str block_id ++ "/children")
    VNone (VDict params) script.

Definition append_block_children (self : NotionClient) (block_id children : value)
    (script : list exchange) : io value :=
  let data := [("children", children)] in
  _make_request self "PATCH" ("blocks/" ++ py_str block_id ++ "/children")
    (VDict data) VNone script.

Definition search_data (query filter_criteria sorts start_cursor page_size : value)
    : run dict :=
  let data := [] in
  let data := set_if data "query" query in
  let data := set_if data "filter" filter_criteria in
  let data := set_if data "sorts" sorts in
  let data := set_if data "start_cursor" start_cursor in
  set_page_size data page_size.

Definition search (self : NotionClient)
    (query filter_criteria sorts start_cursor page_size : value)
    (script : list exchange) : io value :=
  data <-- lift (search_data query filter_criteria sorts start_cursor page_size) ;;
  _make_request self "POST" "search" (VDict data) VNone script.

Definition get_current_user (self : NotionClient) (script : list exchange) : io value :=
  _make_request self "GET" "users/me" VNone VNone script.

(** *** The tools *)

Record Tool : Type := {
  name : string;
  description : string;
  inputSchema : value
}.

Definition prop (type description : string) : value :=
  VDict [("type", VStr type); ("description", VStr description)].
Definition prop_enum (type : string) (enum : list string) (description : string) : value :=
  VDict [("type", VStr type); ("enum", VList (map VStr enum));
         ("description", VStr description)].
Definition prop_page_size : value :=
  VDict [("type", VStr "integer"); ("minimum", VInt 1); ("maximum", VInt 100);
         ("description", VStr "Number of results to return")].
Definition schema (properties : dict) (required : list string) : value :=
  VDict [("type", VStr "object"); ("properties", VDict properties);
         ("required", VList (map VStr required))].
(** A schema written without a ["required"] entry. *)
Definition schema_open (properties : dict) : value :=
  VDict [("type", VStr "object"); ("properties", VDict properties)].

Definition handle_list_tools : list Tool :=
  [ {| name := "notion_search";
       description := "Search across Notion pages and databases";
       inputSchema := schema_open
         [("query", prop "string" "Search query text");
          ("filter_type", prop_enum "string" ["page"; "database"] "Filter by object type");
          ("page_size", prop_page_size)] |};
    {| name := "notion_get_database";
       description := "Get information about a Notion database";
       inputSchema := schema
         [("database_id", prop "string" "The database ID")]
         ["database_id"] |};
    {| name := "notion_query_database";
       description := "Query a Notion database with optional filtering and sorting";
       inputSchema := schema
         [("database_id", prop "string" "The database ID");
          ("filter_criteria", prop "object" "Filter criteria for the query");
          ("sorts", prop "array" "Sort criteria");
          ("page_size", prop_page_size)]
         ["database_id"] |};
    {| name := "notion_create_database";
       description := "Create a new Notion database";
       inputSchema := schema
         [("parent_page_id", prop "string" "Parent page ID where the database will be created");
          ("title", prop "string" "Database title");
          ("properties", prop "object" "Database schema properties")]
         ["parent_page_id"; "title"; "properties"] |};
    {| name := "notion_get_page";
       description := "Get information about a Notion page";
       inputSchema := schema
         [("page_id", prop "string" "The page ID")]
         ["page_id"] |};
    {| name := "notion_create_page";
       description := "Create a new Notion page";
       inputSchema := schema
         [("parent_type", prop_enum "string" ["database"; "page"] "Type of parent");
          ("parent_id", prop "string" "Parent database or page ID");
          ("properties", prop "object" "Page properties");
          ("children", prop "array" "List of block children (optional)")]
         ["parent_type"; "parent_id"; "properties"] |};
    {| name := "notion_update_page";
       description := "Update a Notion page's properties";
       inputSchema := schema
         [("page_id", prop "string" "The page ID");
          ("properties", prop "object" "Properties to update");
          ("archived", prop "boolean" "Whether to archive the page")]
         ["page_id"; "properties"] |};
    {| name := "notion_get_block_children";
       description := "Get children blocks of a Notion page or block";
       inputSchema := schema
         [("block_id", prop "string" "The block or page ID");
          ("page_size", prop_page_size)]
         ["block_id"] |};
    {| name := "notion_append_blocks";
       description := "Append blocks to a Notion page";
       inputSchema := schema
         [("block_id", prop "string" "The parent block or page ID");
          ("children", prop "array" "List of blocks to append")]
         ["block_id"; "children"] |};
    {| name := "notion_get_current_user";
       description := "Get information about the current Notion integration user";
       inputSchema := schema_open [] |} ].

(** The names a tool's schema lists under ["required"]. *)
Definition required (t : Tool) : list string :=
  match inputSchema t with
  | VDict d =>
      match lookup "required" d with
      | Some (VList l) =>
          flat_map (fun v => match v with VStr s => [s] | _ => [] end) l
      | _ => []
      end
  | _ => []
  end.

Record TextContent : Type := {
  type : string;
  text : string
}.

Definition text_result (s : string) : list TextContent :=
  [{| type := "text"; text := s |}].

(** [return [types.TextContent(type="text", text=json.dumps(result, indent=2))]] *)
Definition reply (result : value) : io (list TextContent) :=
  ret (text_result (json_dumps_indent2 result)).

(** The [try] block of [handle_call_tool]. *)
Definition call_tool (notion_client : NotionClient) (name : string)
    (arguments : dict) (script : list exchange) : io (list TextContent) :=
  if (name =? "notion_search")%string then
    let query := get arguments "query" in
    let filter_type := get arguments "filter_type" in
    let page_size := get arguments "page_size" in
    let filter_criteria :=
      if truthy filter_type
      then VDict [("property", VStr "object"); ("value", filter_type)]
      else VNone in
    result <-- search notion_client query filter_criteria VNone VNone page_size script ;;
    reply result
  else if (name =? "notion_get_database")%string then
    database_id <-- lift (subscript arguments "database_id") ;;
    result <-- get_database notion_client database_id script ;;
    reply result
  else if (name =? "notion_query_database")%string then
    database_id <-- lift (subscript arguments "database_id") ;;
    let filter_criteria := get arguments "filter_criteria" in
    let sorts := get arguments "sorts" in
    let page_size := get arguments "page_size" in
    result <-- query_database notion_client database_id filter_criteria sorts
                 VNone page_size script ;;
    reply result
  else if (name =? "notion_create_database")%string then
    parent_page_id <-- lift (subscript arguments "parent_page_id") ;;
    title <-- lift (subscript arguments "title") ;;
    properties <-- lift (subscript arguments "properties") ;;
    let parent := VDict [("type", VStr "page_id"); ("page_id", parent_page_id)] in
    result <-- create_database notion_client parent title properties script ;;
    reply result
  else if (name =? "notion_get_page")%string then
    page_id <-- lift (subscript arguments "page_id") ;;
    result <-- get_page notion_client page_id script ;;
    reply result
  else if (name =? "notion_create_page")%string then
    parent_type <-- lift (subscript arguments "parent_type") ;;
    parent_id <-- lift (subscript arguments "parent_id") ;;
    properties <-- lift (subscript arguments "properties") ;;
    let children := get arguments "children" in
    let parent :=
      if eq_str parent_type "database"
      then VDict [("type", VStr "database_id"); ("database_id", parent_id)]
      else VDict [("type", VStr "page_id"); ("page_id", parent_id)] in
    result <-- create_page notion_client parent properties children script ;;
    reply result
  else if (name =? "notion_update_page")%string then
    page_id <-- lift (subscript arguments "page_id") ;;
    properties <-- lift (subscript arguments "properties") ;;
    let archived := get arguments "archived" in
    result <-- update_page notion_client page_id properties archived script ;;
    reply result
  else if (name =? "notion_get_block_children")%string then
    block_id <-- lift (subscript arguments "block_id") ;;
    let page_size := get arguments "page_size" in
    result <-- get_block_children notion_client block_id VNone page_size script ;;
    reply result
  else if (name =? "notion_append_blocks")%string then
    block_id <-- lift (subscript arguments "block_id") ;;
    children <-- lift (subscript arguments "children") ;;
    result <-- append_block_children notion_client block_id children script ;;
    reply result
  else if (name =? "notion_get_current_user")%string then
    result <-- get_current_user notion_client script ;;
    reply result
  else
    ret (text_result ("Unknown tool: " ++ name)).

(** [handle_call_tool]: the guard on the global client, then the [try]
    block under [except Exception]. *)
Definition handle_call_tool (notion_client : option NotionClient) (name : string)
    (arguments : dict) (script : list exchange) : io (list TextContent) :=
  match notion_client with
  | None => ret (text_result "Error: Notion client not initialized")
  | Some client =>
      let tried := call_tool client name arguments script in
      match fst tried with
      | Raise e =>
          let error_msg := "Error executing " ++ name ++ ": " ++ str_exn e in
          (Return (text_result error_msg), (snd tried ++ [Logged error_msg])%list)
      | _ => tried
      end
  end.

(** [initialize_client]: the client it stores in the global, when the
    constructor returns. *)
Definition initialize_client (env : environ) (script : list exchange) : io NotionClient :=
  let made := __init__ env None default_notion_version
                (environ_get env "NANGO_CONNECTION_ID")
                (environ_get env "NANGO_INTEGRATION_ID") script in
  match fst made with
  | Raise e =>
      (Raise e, (snd made ++ [Logged ("Failed to initialize Notion client: "
                                      ++ str_exn e)])%list)
  | _ => made
  end.

End Notion.

Import Py Http Notion.

(** * Properties *)

(** ** Vocabulary of the statements *)

(** Replies, by status. *)
Definition two_xx (r : response) : bool :=
  (200 <=? status_code r) && (status_code r <? 300).

Definition error_status (r : response) : bool :=
  (400 <=? status_code r) && (status_code r <? 600).

(** The names of the registered tools. *)
Definition tool_names : list string := map name handle_list_tools.

(** The body of a request, read as a dictionary. *)
Definition body_field (q : request) (k : string) : option value :=
  match req_json q with
  | VDict d => lookup k d
  | _ => None
  end.

(** ** Concrete inputs *)

Module Samples.

Definition client : NotionClient :=
  {| notion_version := default_notion_version;
     base_url := "https://api.notion.com/v1";
     nango_connection_id := None;
     nango_provider_config_key := None;
     auth_token := VStr "secret";
     headers := [("Authorization", "Bearer secret");
                 ("Notion-Version", default_notion_version);
                 ("Content-Type", "application/json")] |}.

Definition me : request :=
  {| req_method := "GET"; req_url := "https://api.notion.com/v1/users/me";
     req_headers := headers client; req_params := VNone; req_json := VNone |}.

Definition bot : value := VDict [("object", VStr "user"); ("type", VStr "bot")].

Definition ok : response :=
  {| status_code := 200; reason := "OK";
     resp_url := "https://api.notion.com/v1/users/me";
     resp_headers := [("Content-Type", "application/json")];
     content := JsonBody bot |}.

Definition not_found : response :=
  {| status_code := 404; reason := "Not Found";
     resp_url := "https://api.notion.com/v1/users/me";
     resp_headers := [];
     content := JsonBody (VDict [("object", VStr "error")]) |}.

Definition too_many_requests : response :=
  {| status_code := 429; reason := "Too Many Requests";
     resp_url := "https://api.notion.com/v1/users/me";
     resp_headers := [("Retry-After", "2")];
     content := EmptyBody |}.

Definition get_database_tool : Tool :=
  {| name := "notion_get_database";
     description := "Get information about a Notion database";
     inputSchema := schema [("database_id", prop "string" "The database ID")]
                      ["database_id"] |}.

Definition page_arguments : dict :=
  [("parent_type", VStr "database"); ("parent_id", VStr "X");
   ("properties", VDict [])].

Definition page_request : request :=
  {| req_method := "POST"; req_url := "https://api.notion.com/v1/pages";
     req_headers := headers client; req_params := VNone;
     req_json := VDict [("parent", VDict [("type", VStr "database_id");
                                          ("database_id", VStr "X")]);
                        ("properties", VDict [])] |}.

Definition nango_env : environ :=
  [("NANGO_BASE_URL", "https://api.nango.dev"); ("NANGO_SECRET_KEY", "key")].

Definition broker_request : request :=
  {| req_method := "GET"; req_url := "https://api.nango.dev/connection/conn";
     req_headers := [("Authorization", "Bearer key")];
     req_params := VDict [("provider_config_key", VStr "notion");
                          ("refresh_token", VStr "true")];
     req_json := VNone |}.

(** A broker reply whose ["credentials"] hold no ["access_token"]. *)
Definition no_token_reply : response :=
  {| status_code := 200; reason := "OK";
     resp_url := "https://api.nango.dev/connection/conn";
     resp_headers := [("Content-Type", "application/json")];
     content := JsonBody (VDict [("id", VInt 7);
                                 ("credentials", VDict [("type", VStr "OAUTH2")])]) |}.

(** A broker reply with neither ["credentials"] nor ["access_token"]. *)
Definition bare_reply : response :=
  {| status_code := 200; reason := "OK";
     resp_url := "https://api.nango.dev/connection/conn";
     resp_headers := [("Content-Type", "application/json")];
     content := JsonBody (VDict [("id", VInt 7)]) |}.

End Samples.

(** ** Further vocabulary *)

(** The methods the [if/elif] chain of [_make_request] knows. *)
Definition supported (method : string) : bool :=
  let m := upper method in
  (m =? "GET")%string || (m =? "POST")%string || (m =? "PATCH")%string
  || (m =? "DELETE")%string.

(** [int(response.headers.get('Retry-After', 1))] *)
Definition retry_after (r : response) : run Z :=
  match header_get (resp_headers r) "Retry-After" with
  | Some s => int_of_str s
  | None => Return 1
  end.

(** [isinstance(e, requests.exceptions.RequestException)] *)
Definition is_requests_error (e : exn) : bool :=
  match e with
  | RequestException _ _ => true
  | _ => false
  end.

(** The first key of [ks], in their order, that [d] does not hold. *)
Fixpoint first_missing (ks : list string) (d : dict) : option string :=
  match ks with
  | [] => None
  | k :: rest =>
      match lookup k d with
      | None => Some k
      | Some _ => first_missing rest d
      end
  end.

Definition is_sent (ev : event) : bool :=
  match ev with
  | Sent _ => true
  | _ => false
  end.

(** How many requests a trace holds. *)
Definition count_sent (evs : list event) : nat := length (filter is_sent evs).

Definition rate_limited (x : exchange) : bool :=
  match x with
  | Replies r => status_code r =? 429
  | Fails _ _ => false
  end.

(** How many 429 replies a script holds. *)
Definition count_rate_limited (script : list exchange) : nat :=
  length (filter rate_limited script).

(** The query parameters of a request, read as a dictionary. *)
Definition params_field (q : request) (k : string) : option value :=
  match req_params q with
  | VDict d => lookup k d
  | _ => None
  end.


(** A [page_size] that [min(page_size, 100)] accepts, or that is falsy
    and never reaches it. *)
Definition page_size_ok (v : value) : bool :=
  match v with
  | VInt _ | VBool _ => true
  | _ => negb (truthy v)
  end.


(** The request [get_connection_credentials] makes. *)
Definition broker_call (env : environ) (id key : option string) : request :=
  {| req_method := "GET";
     req_url := fstr (environ_get env "NANGO_BASE_URL") ++ "/connection/" ++ fstr id;
     req_headers := [("Authorization",
                      "Bearer " ++ fstr (environ_get env "NANGO_SECRET_KEY"))];
     req_params := VDict [("provider_config_key", opt_value key);
                          ("refresh_token", VStr "true")];
     req_json := VNone |}.


(** ** Further concrete inputs *)

Module MoreSamples.

(** A 429 without [Retry-After]. *)
Definition throttled : response :=
  {| status_code := 429; reason := "Too Many Requests";
     resp_url := "https://api.notion.com/v1/users/me";
     resp_headers := []; content := EmptyBody |}.

(** A 429 whose [Retry-After] is an HTTP date. *)
Definition throttled_until : response :=
  {| status_code := 429; reason := "Too Many Requests";
     resp_url := "https://api.notion.com/v1/users/me";
     resp_headers := [("retry-after", "Wed, 21 Oct 2015 07:28:00 GMT")];
     content := EmptyBody |}.

(** A 429 whose [Retry-After] is negative. *)
Definition throttled_negative : response :=
  {| status_code := 429; reason := "Too Many Requests";
     resp_url := "https://api.notion.com/v1/users/me";
     resp_headers := [("Retry-After", "-5")];
     content := EmptyBody |}.

(** A 429 whose [Retry-After] is more seconds than [time.sleep] takes. *)
Definition throttled_too_long : response :=
  {| status_code := 429; reason := "Too Many Requests";
     resp_url := "https://api.notion.com/v1/users/me";
     resp_headers := [("Retry-After", "9223372037")];
     content := EmptyBody |}.

Definition no_content : response :=
  {| status_code := 204; reason := "No Content";
     resp_url := "https://api.notion.com/v1/users/me";
     resp_headers := []; content := EmptyBody |}.

Definition unavailable : response :=
  {| status_code := 503; reason := "Service Unavailable";
     resp_url := "https://api.nango.dev/connection/conn";
     resp_headers := []; content := EmptyBody |}.

(** Broker replies with a token, nested and at top level. *)
Definition nested_token_reply : response :=
  {| status_code := 200; reason := "OK";
     resp_url := "https://api.nango.dev/connection/conn";
     resp_headers := [];
     content := JsonBody (VDict [("credentials",
                                  VDict [("access_token", VStr "nested")]);
                                 ("access_token", VStr "top")]) |}.

Definition top_token_reply : response :=
  {| status_code := 200; reason := "OK";
     resp_url := "https://api.nango.dev/connection/conn";
     resp_headers := [];
     content := JsonBody (VDict [("access_token", VStr "top")]) |}.

(** An environment with the four variables of the broker path. *)
Definition broker_env : environ :=
  [("NANGO_CONNECTION_ID", "conn"); ("NANGO_INTEGRATION_ID", "notion");
   ("NANGO_BASE_URL", "https://api.nango.dev"); ("NANGO_SECRET_KEY", "key")].

Definition create_database_tool : Tool :=
  {| name := "notion_create_database";
     description := "Create a new Notion database";
     inputSchema := schema
       [("parent_page_id", prop "string" "Parent page ID where the database will be created");
        ("title", prop "string" "Database title");
        ("properties", prop "object" "Database schema properties")]
       ["parent_page_id"; "title"; "properties"] |}.


Definition page_request : request :=
  {| req_method := "GET"; req_url := "https://api.notion.com/v1/pages/p1";
     req_headers := headers Samples.client; req_params := VNone;
     req_json := VNone |}.

End MoreSamples.

(** ** The embedding on small inputs *)

Example int_of_str_plain : int_of_str "2" = Return 2.
Proof. reflexivity. Qed.

Example int_of_str_padded : int_of_str " 120 " = Return 120.
Proof. reflexivity. Qed.

Example int_of_str_date :
  int_of_str "Wed, 21 Oct 2015 07:28:00 GMT"
  = Raise (ValueError
      "invalid literal for int() with base 10: 'Wed, 21 Oct 2015 07:28:00 GMT'").
Proof. reflexivity. Qed.

Example str_key_error : str_exn (KeyError "database_id") = "'database_id'".
Proof. reflexivity. Qed.

Example int_of_str_too_long :
  int_of_str (String.concat "" (repeat "1" 4301) ++ "x")
  = Raise (ValueError
      "Exceeds the limit (4300 digits) for integer string conversion: value has 4301 digits; use sys.set_int_max_str_digits() to increase the limit").
Proof. vm_compute. reflexivity. Qed.

Example int_of_str_underscores :
  int_of_str "1_000" = Return 1000
  /\ int_of_str "1__0"
     = Raise (ValueError "invalid literal for int() with base 10: '1__0'")
  /\ int_of_str "-12" = Return (-12)
  /\ int_of_str "_1"
     = Raise (ValueError "invalid literal for int() with base 10: '_1'")
  /\ int_of_str "+"
     = Raise (ValueError "invalid literal for int() with base 10: '+'").
Proof. repeat split. Qed.

Example sleep_edges :
  sleep 9223372036 = emit (Slept 9223372036)
  /\ sleep 9223372037
     = raise (OverflowError "timestamp too large to convert to C _PyTime_t")
  /\ sleep (-9223372036) = raise (ValueError "sleep length must be non-negative")
  /\ sleep (-9223372037)
     = raise (OverflowError "timestamp too large to convert to C _PyTime_t").
Proof. repeat split. Qed.

Example min_100_above : min_100 (VInt 250) = Return (VInt 100).
Proof. reflexivity. Qed.

Example min_100_below : min_100 (VInt 25) = Return (VInt 25).
Proof. reflexivity. Qed.

Example min_100_text :
  min_100 (VStr "25")
  = Raise (TypeError "'<' not supported between instances of 'int' and 'str'").
Proof. reflexivity. Qed.

Example endpoint_url_slashes :
  endpoint_url Samples.client "//users/me" = "https://api.notion.com/v1/users/me".
Proof. reflexivity. Qed.

Example dumps_nested :
  json_dumps_indent2 (VList [VInt 1; VNone; VList [VBool true]; VDict []])
  = String.concat (str1 newline)
      ["["; "  1,"; "  null,"; "  ["; "    true"; "  ],"; "  {}"; "]"].
Proof. reflexivity. Qed.

(** The sample client is the one the constructor builds from a static
    token; no exchange takes place. *)
Example init_static_token (script : list exchange) :
  __init__ [] (Some "secret") default_notion_version None None script
  = (Return Samples.client, []).
Proof. reflexivity. Qed.

(** Unsupported methods raise [ValueError] before anything is sent; it
    is no [RequestException] and leaves the loop at once. *)
Example make_request_put (script : list exchange) :
  _make_request Samples.client "PUT" "users/me" VNone VNone script
  = (Raise (ValueError "Unsupported HTTP method: PUT"), []).
Proof. destruct script; reflexivity. Qed.

(** ** Replies, by status *)
Lemma append_nonempty (a b : string) : b <> "" -> (a ++ b)%string <> "".
Proof. destruct a; simpl; [trivial | discriminate]. Qed.

Lemma http_error_msg_error (r : response) :
  error_status r = true -> (http_error_msg r =? "")%string = false.
Proof.
  unfold error_status, http_error_msg. intros H.
  apply andb_true_iff in H as [H1 H2].
  apply Z.leb_le in H1. apply Z.ltb_lt in H2.
  apply String.eqb_neq.
  destruct (status_code r <? 500) eqn:E.
  - replace (400 <=? status_code r) with true by (symmetry; apply Z.leb_le; lia).
    simpl. apply append_nonempty. discriminate.
  - apply Z.ltb_ge in E.
    replace (500 <=? status_code r) with true by (symmetry; apply Z.leb_le; lia).
    replace (status_code r <? 600) with true by (symmetry; apply Z.ltb_lt; lia).
    rewrite andb_false_r. simpl. apply append_nonempty. discriminate.
Qed.

Lemma http_error_msg_ok (r : response) :
  error_status r = false -> http_error_msg r = "".
Proof.
  unfold error_status, http_error_msg. intros H.
  destruct (400 <=? status_code r) eqn:E1; simpl in *.
  - rewrite H. apply Z.leb_le in E1. apply Z.ltb_ge in H.
    replace (status_code r <? 500) with false by (symmetry; apply Z.ltb_ge; lia).
    rewrite andb_false_r. reflexivity.
  - apply Z.leb_gt in E1.
    replace (500 <=? status_code r) with false by (symmetry; apply Z.leb_gt; lia).
    reflexivity.
Qed.

Lemma two_xx_no_error (r : response) :
  two_xx r = true -> error_status r = false /\ (status_code r =? 429) = false.
Proof.
  unfold two_xx, error_status. intros H.
  apply andb_true_iff in H as [H1 H2].
  apply Z.leb_le in H1. apply Z.ltb_lt in H2. split.
  - replace (400 <=? status_code r) with false by (symmetry; apply Z.leb_gt; lia).
    reflexivity.
  - apply Z.eqb_neq. lia.
Qed.

(** The [try] block on a reply that is no error and not a 429. *)
Lemma attempt_success (r : response) (j : value) :
  two_xx r = true -> content r = JsonBody j ->
  attempt (Replies r) = (Return (Result j), []).
Proof.
  intros H2 Hc. destruct (two_xx_no_error r H2) as [He H429].
  unfold attempt. rewrite H429.
  unfold raise_for_status, has_content, response_json.
  rewrite (http_error_msg_ok r He), Hc. reflexivity.
Qed.

Lemma attempt_success_empty (r : response) :
  two_xx r = true -> content r = EmptyBody ->
  attempt (Replies r) = (Return (Result (VDict [])), []).
Proof.
  intros H2 Hc. destruct (two_xx_no_error r H2) as [He H429].
  unfold attempt. rewrite H429.
  unfold raise_for_status, has_content.
  rewrite (http_error_msg_ok r He), Hc. reflexivity.
Qed.

(** The [try] block on a 4xx or 5xx reply other than 429:
    [raise_for_status] raises an [HTTPError]. *)
Lemma attempt_http_error (r : response) :
  error_status r = true -> status_code r <> 429 ->
  attempt (Replies r) = (Raise (RequestException HTTPError (http_error_msg r)), []).
Proof.
  intros He H429. unfold attempt.
  apply Z.eqb_neq in H429. rewrite H429.
  unfold raise_for_status. rewrite (http_error_msg_error r He). reflexivity.
Qed.

(** A number of seconds [time.sleep] takes. *)
Lemma sleep_slept (n : Z) : 0 <= n < sleep_limit -> sleep n = emit (Slept n).
Proof.
  intros Hn. unfold sleep.
  replace (sleep_limit <=? Z.abs n) with false by (symmetry; apply Z.leb_gt; lia).
  replace (n <? 0) with false by (symmetry; apply Z.ltb_ge; lia).
  reflexivity.
Qed.

(** The [try] block on a 429 whose [Retry-After] reads as a number of
    seconds [time.sleep] takes. *)
Lemma attempt_rate_limited (r : response) (s : string) (n : Z) :
  status_code r = 429 ->
  header_get (resp_headers r) "Retry-After" = Some s ->
  int_of_str s = Return n -> 0 <= n < sleep_limit ->
  attempt (Replies r) = (Return Continue, [Slept n]).
Proof.
  intros H429 Hh Hi Hn. unfold attempt. rewrite H429, Hh, Hi. simpl.
  unfold io_bind, lift. cbn [fst snd]. rewrite (sleep_slept n Hn). reflexivity.
Qed.

Section RetryLoop.

Variable self : NotionClient.
Variables method url : string.
Variables data params : value.
Variable req : request.
Hypothesis supported : build_request self method url data params = Return req.

Local Abbreviation loop := (retry_loop self method url data params).

(** One turn of the loop, on the outcome of its [try] block. *)
Lemma retry_loop_turn (rc : Z) (x : exchange) (rest : list exchange) :
  rc < max_retries ->
  loop rc (x :: rest) =
    match fst (attempt x) with
    | Return (Result v) => (Return v, Sent req :: snd (attempt x))
    | Return Continue =>
        (fst (loop rc rest), Sent req :: snd (attempt x) ++ snd (loop rc rest))%list
    | Raise (RequestException _ msg) =>
        if rc =? max_retries - 1 then
          (Raise (NotionAPIError ("API request failed after " ++ string_of_Z max_retries
                                  ++ " retries: " ++ msg)),
           Sent req :: snd (attempt x))
        else (fst (loop (rc + 1) rest),
              Sent req :: snd (attempt x) ++ Slept 1 :: snd (loop (rc + 1) rest))%list
    | Raise e => (Raise e, Sent req :: snd (attempt x))
    | Pending => (Pending, Sent req :: snd (attempt x))
    end.
Proof.
  intros Hrc. simpl.
  apply Z.ltb_lt in Hrc. rewrite Hrc, supported. reflexivity.
Qed.

Lemma retry_loop_starved (rc : Z) :
  rc < max_retries -> loop rc [] = (Pending, [Sent req]).
Proof.
  intros Hrc. simpl.
  apply Z.ltb_lt in Hrc. rewrite Hrc, supported. reflexivity.
Qed.

(** With no turn left the loop falls through. *)
Lemma retry_loop_done (rc : Z) (script : list exchange) :
  max_retries <= rc -> loop rc script = (Return VNone, []).
Proof.
  intros Hrc. apply Z.ltb_ge in Hrc.
  destruct script; simpl; rewrite Hrc; reflexivity.
Qed.

End RetryLoop.

(** When the method is none of the four, nothing is sent. *)
Lemma retry_loop_unsupported self method url data params rc script :
  (forall req, build_request self method url data params <> Return req) ->
  snd (retry_loop self method url data params rc script) = [].
Proof.
  intros H. destruct script; simpl; destruct (rc <? max_retries); try reflexivity;
    destruct (build_request self method url data params) eqn:E;
    try reflexivity; exfalso; eapply H; reflexivity.
Qed.

Arguments retry_loop : simpl never.

Section RetryLoopTurns.

Variable self : NotionClient.
Variables method url : string.
Variables data params : value.
Variable req : request.
Hypothesis supported : build_request self method url data params = Return req.

Local Abbreviation loop := (retry_loop self method url data params).
Let turn := retry_loop_turn self method url data params req supported.
Let starved := retry_loop_starved self method url data params req supported.

(** A network failure: the last turn raises, an earlier one sleeps a
    second and goes on. *)
Lemma retry_loop_fails (rc : Z) cls msg rest :
  rc < max_retries ->
  loop rc (Fails cls msg :: rest) =
    if rc =? max_retries - 1 then
      (Raise (NotionAPIError ("API request failed after 3 retries: " ++ msg)), [Sent req])
    else (fst (loop (rc + 1) rest), Sent req :: Slept 1 :: snd (loop (rc + 1) rest)).
Proof.
  intros Hrc. rewrite turn by assumption. reflexivity.
Qed.

(** A 4xx or 5xx reply other than 429 goes the same way. *)
Lemma retry_loop_http_error (rc : Z) r rest :
  rc < max_retries -> error_status r = true -> status_code r <> 429 ->
  loop rc (Replies r :: rest) =
    if rc =? max_retries - 1 then
      (Raise (NotionAPIError ("API request failed after 3 retries: "
                              ++ http_error_msg r)), [Sent req])
    else (fst (loop (rc + 1) rest), Sent req :: Slept 1 :: snd (loop (rc + 1) rest)).
Proof.
  intros Hrc He H429. rewrite turn by assumption.
  rewrite attempt_http_error by assumption. reflexivity.
Qed.

Lemma retry_loop_success (rc : Z) r j rest :
  rc < max_retries -> two_xx r = true -> content r = JsonBody j ->
  loop rc (Replies r :: rest) = (Return j, [Sent req]).
Proof.
  intros Hrc H2 Hc. rewrite turn by assumption.
  rewrite (attempt_success r j) by assumption. reflexivity.
Qed.

(** A 429 leaves [retry_count] as it is. *)
Lemma retry_loop_rate_limited (rc : Z) r s n rest :
  rc < max_retries -> status_code r = 429 ->
  header_get (resp_headers r) "Retry-After" = Some s ->
  int_of_str s = Return n -> 0 <= n < sleep_limit ->
  loop rc (Replies r :: rest) =
    (fst (loop rc rest), Sent req :: Slept n :: snd (loop rc rest)).
Proof.
  intros Hrc H429 Hh Hi Hn. rewrite turn by assumption.
  rewrite (attempt_rate_limited r s n) by assumption. reflexivity.
Qed.

(** Every request the loop sends is the one request it built. *)
Lemma attempt_sends_nothing (x : exchange) (q : request) :
  ~ In (Sent q) (snd (attempt x)).
Proof.
  destruct x as [cls msg | r]; simpl; [tauto |].
  destruct (status_code r =? 429).
  - unfold io_bind, lift; cbn [fst snd].
    destruct (match header_get (resp_headers r) "Retry-After" with
              | Some s => int_of_str s
              | None => Return 1
              end) as [n | e |]; cbn [fst snd]; try tauto.
    unfold sleep.
    destruct (sleep_limit <=? Z.abs n); [cbn; tauto |].
    destruct (n <? 0); cbn; [tauto |].
    intros [H | []]. discriminate.
  - unfold io_bind, lift. simpl.
    destruct (raise_for_status r); simpl; try tauto.
    destruct (has_content r); simpl; [| tauto].
    destruct (response_json r); simpl; tauto.
Qed.

Lemma retry_loop_sends (script : list exchange) :
  forall rc q, In (Sent q) (snd (loop rc script)) -> q = req.
Proof.
  induction script as [| x rest IH]; intros rc q Hin;
    destruct (Z.ltb_spec rc max_retries) as [Hrc | Hrc];
    try (rewrite retry_loop_done in Hin by assumption; destruct Hin).
  - rewrite starved in Hin by assumption.
    destruct Hin as [H | []]. congruence.
  - rewrite turn in Hin by assumption.
    pose proof (attempt_sends_nothing x q) as Hno.
    destruct (fst (attempt x)) as [[| v] | e |].
    + simpl in Hin. destruct Hin as [H | H]; [congruence |].
      apply in_app_or in H as [H | H]; [contradiction | eauto].
    + simpl in Hin. destruct Hin as [H | H]; [congruence | contradiction].
    + destruct e;
        try (simpl in Hin; destruct Hin as [H | H]; [congruence | contradiction]).
      destruct (rc =? max_retries - 1); simpl in Hin;
        (destruct Hin as [H | H]; [congruence |]); [contradiction |].
      apply in_app_or in H as [H | H]; [contradiction |].
      destruct H as [H | H]; [discriminate | eauto].
    + simpl in Hin. destruct Hin as [H | H]; [congruence | contradiction].
Qed.

(** With a turn left the loop does send it. *)
Lemma retry_loop_first (rc : Z) (script : list exchange) :
  rc < max_retries -> exists evs, snd (loop rc script) = Sent req :: evs.
Proof.
  intros Hrc. destruct script as [| x rest].
  - rewrite starved by assumption. simpl. eauto.
  - rewrite turn by assumption.
    destruct (fst (attempt x)) as [[| v] | e |]; try (simpl; eauto; fail).
    destruct e; try (simpl; eauto; fail).
    destruct (rc =? max_retries - 1); simpl; eauto.
Qed.

(** Under 429 replies alone the loop never leaves. *)
Lemma retry_loop_rate_limited_repeat (rc : Z) r s k (n : nat) :
  rc < max_retries -> status_code r = 429 ->
  header_get (resp_headers r) "Retry-After" = Some s ->
  int_of_str s = Return k -> 0 <= k < sleep_limit ->
  loop rc (repeat (Replies r) n) =
    (Pending, (List.concat (repeat [Sent req; Slept k] n) ++ [Sent req])%list).
Proof.
  intros Hrc H429 Hh Hi Hk. induction n as [| n IH]; simpl.
  - apply starved. assumption.
  - rewrite (retry_loop_rate_limited rc r s k) by assumption.
    rewrite IH. reflexivity.
Qed.

End RetryLoopTurns.

(** ** The request primitive *)

(** C3.  When the three attempts all meet a network-level exception,
    [_make_request] raises [NotionAPIError] with the message of the last
    one, after three requests and two sleeps of a second.  When fewer
    than three attempts fail that way and the next one is answered by a
    2xx reply with a JSON body, it returns that body. *)
Theorem make_request_network_failures
    (self : NotionClient) (method endpoint : string) (data params : value)
    (req : request) (c1 c2 c3 : requests_error) (m1 m2 m3 : string)
    (fs : list (requests_error * string)) (r : response) (j : value)
    (rest : list exchange) :
  build_request self method (endpoint_url self endpoint) data params = Return req ->
  (length fs < 3)%nat -> two_xx r = true -> content r = JsonBody j ->
  _make_request self method endpoint data params
      (Fails c1 m1 :: Fails c2 m2 :: Fails c3 m3 :: rest)
    = (Raise (NotionAPIError ("API request failed after 3 retries: " ++ m3)),
       [Sent req; Slept 1; Sent req; Slept 1; Sent req])
  /\ _make_request self method endpoint data params
       (map (fun f => Fails (fst f) (snd f)) fs ++ Replies r :: rest)
     = (Return j, (flat_map (fun _ => [Sent req; Slept 1]) fs ++ [Sent req])%list).
Proof.
  intros Hreq Hfs H2 Hc. unfold _make_request. split.
  - repeat (rewrite (retry_loop_fails _ _ _ _ _ _ Hreq)
              by (unfold max_retries; lia); simpl).
    reflexivity.
  - destruct fs as [| [a1 b1] [| [a2 b2] [| [a3 b3] l]]];
      simpl in Hfs; try lia; simpl;
      repeat (rewrite (retry_loop_fails _ _ _ _ _ _ Hreq)
                by (unfold max_retries; lia); simpl);
      rewrite (retry_loop_success _ _ _ _ _ _ Hreq _ r j)
        by (try assumption; unfold max_retries; lia);
      reflexivity.
Qed.

Lemma make_request_network_failures_witness :
  _make_request Samples.client "GET" "users/me" VNone VNone
      [Fails ConnectionError "refused"; Fails Timeout "timed out";
       Fails ConnectionError "reset"]
    = (Raise (NotionAPIError "API request failed after 3 retries: reset"),
       [Sent Samples.me; Slept 1; Sent Samples.me; Slept 1; Sent Samples.me])
  /\ _make_request Samples.client "GET" "users/me" VNone VNone
       [Fails ConnectionError "refused"; Replies Samples.ok]
     = (Return Samples.bot, [Sent Samples.me; Slept 1; Sent Samples.me]).
Proof.
  apply (make_request_network_failures Samples.client "GET" "users/me" VNone VNone
           Samples.me ConnectionError Timeout ConnectionError
           "refused" "timed out" "reset" [(ConnectionError, "refused")]
           Samples.ok Samples.bot []).
  - reflexivity.
  - simpl. lia.
  - reflexivity.
  - reflexivity.
Defined.

(** C1, as the code has it.  A reply with a 4xx or 5xx status other than
    429 is handled like a network failure: [raise_for_status] raises an
    [HTTPError], which the [except RequestException] clause takes.  The
    first such reply is followed by a sleep of one second and a second
    request; only three such replies in a row make [_make_request] raise
    [NotionAPIError], with the message of the last HTTP error. *)
Theorem make_request_http_error
    (self : NotionClient) (method endpoint : string) (data params : value)
    (req : request) (r1 r2 r3 : response) (rest : list exchange) :
  build_request self method (endpoint_url self endpoint) data params = Return req ->
  error_status r1 = true -> status_code r1 <> 429 ->
  error_status r2 = true -> status_code r2 <> 429 ->
  error_status r3 = true -> status_code r3 <> 429 ->
  let url := endpoint_url self endpoint in
  _make_request self method endpoint data params (Replies r1 :: rest)
    = (fst (retry_loop self method url data params 1 rest),
       Sent req :: Slept 1 :: snd (retry_loop self method url data params 1 rest))
  /\ _make_request self method endpoint data params
       (Replies r1 :: Replies r2 :: Replies r3 :: rest)
     = (Raise (NotionAPIError ("API request failed after 3 retries: "
                               ++ http_error_msg r3)),
        [Sent req; Slept 1; Sent req; Slept 1; Sent req]).
Proof.
  intros Hreq He1 H1 He2 H2 He3 H3 url. unfold _make_request. fold url. split.
  - rewrite (retry_loop_http_error _ _ _ _ _ _ Hreq 0 r1)
      by (try assumption; unfold max_retries; lia).
    reflexivity.
  - rewrite (retry_loop_http_error _ _ _ _ _ _ Hreq 0 r1)
      by (try assumption; unfold max_retries; lia).
    simpl.
    rewrite (retry_loop_http_error _ _ _ _ _ _ Hreq 1 r2)
      by (try assumption; unfold max_retries; lia).
    simpl.
    rewrite (retry_loop_http_error _ _ _ _ _ _ Hreq 2 r3)
      by (try assumption; unfold max_retries; lia).
    reflexivity.
Qed.

Lemma make_request_http_error_witness :
  _make_request Samples.client "GET" "users/me" VNone VNone
      [Replies Samples.not_found; Replies Samples.not_found;
       Replies Samples.not_found]
    = (Raise (NotionAPIError
         "API request failed after 3 retries: 404 Client Error: Not Found for url: https://api.notion.com/v1/users/me"),
       [Sent Samples.me; Slept 1; Sent Samples.me; Slept 1; Sent Samples.me]).
Proof.
  apply (make_request_http_error Samples.client "GET" "users/me" VNone VNone
           Samples.me Samples.not_found Samples.not_found Samples.not_found []).
  - reflexivity.
  - reflexivity.
  - simpl. lia.
  - reflexivity.
  - simpl. lia.
  - reflexivity.
  - simpl. lia.
Defined.

(** C1 as the specification words it fails: after a 404, which is neither
    2xx nor 429, the client sleeps a second, sends the request again and,
    the second reply being a 200, returns its body; no [NotionAPIError]
    is raised. *)
Lemma make_request_http_error_not_immediate :
  two_xx Samples.not_found = false
  /\ status_code Samples.not_found <> 429
  /\ _make_request Samples.client "GET" "users/me" VNone VNone
       [Replies Samples.not_found; Replies Samples.ok]
     = (Return Samples.bot, [Sent Samples.me; Slept 1; Sent Samples.me])
  /\ ~ (exists msg,
         _make_request Samples.client "GET" "users/me" VNone VNone
           [Replies Samples.not_found; Replies Samples.ok]
         = (Raise (NotionAPIError msg), [Sent Samples.me])).
Proof.
  split; [reflexivity |]. split; [simpl; lia |]. split; [reflexivity |].
  intros [msg H]. vm_compute in H. discriminate H.
Qed.

(** C2 on the code.  When every reply is a 429 with [Retry-After: 2] the
    client sleeps two seconds after each and sends the same request
    again, but [retry_count] stays at 0: after [n] such replies it has
    sent [n + 1] requests and is waiting for the next reply, for every
    [n].  It never gives up, neither after 3 attempts nor later. *)
Theorem make_request_rate_limited_forever
    (self : NotionClient) (endpoint : string) (params : value) (n : nat) :
  let req := {| req_method := "GET"; req_url := endpoint_url self endpoint;
                req_headers := headers self; req_params := params;
                req_json := VNone |} in
  _make_request self "GET" endpoint VNone params
      (repeat (Replies Samples.too_many_requests) n)
    = (Pending, (List.concat (repeat [Sent req; Slept 2] n) ++ [Sent req])%list).
Proof.
  intros req. unfold _make_request.
  apply (retry_loop_rate_limited_repeat self "GET" (endpoint_url self endpoint)
           VNone params req eq_refl 0 Samples.too_many_requests "2" 2 n).
  - unfold max_retries. lia.
  - reflexivity.
  - reflexivity.
  - reflexivity.
  - unfold sleep_limit. lia.
Qed.

(** What [_make_request] puts on the wire: with a supported method the
    request is sent, and every request sent is that one. *)
Lemma make_request_trace self method endpoint data params req script :
  build_request self method (endpoint_url self endpoint) data params = Return req ->
  (exists evs, snd (_make_request self method endpoint data params script)
               = Sent req :: evs)
  /\ (forall q, In (Sent q) (snd (_make_request self method endpoint data params script))
                -> q = req).
Proof.
  intros Hreq. unfold _make_request. split.
  - apply (retry_loop_first _ _ _ _ _ _ Hreq). unfold max_retries. lia.
  - intros q. apply (retry_loop_sends _ _ _ _ _ _ Hreq).
Qed.

(** ** Payloads *)







Lemma io_bind_lift_return {A B} (a : A) (k : A -> io B) :
  (x <-- lift (Return a) ;; k x) = k a.
Proof. unfold io_bind, lift. simpl. destruct (k a). reflexivity. Qed.


(** The requests of [search] all carry the dictionary [search_data]
    built. *)
Lemma search_sent self query filter_criteria sorts start_cursor page_size script q :
  In (Sent q) (snd (search self query filter_criteria sorts start_cursor
                      page_size script)) ->
  exists d, search_data query filter_criteria sorts start_cursor page_size = Return d
            /\ q = {| req_method := "POST"; req_url := endpoint_url self "search";
                      req_headers := headers self; req_params := VNone;
                      req_json := VDict d |}.
Proof.
  unfold search.
  destruct (search_data query filter_criteria sorts start_cursor page_size)
    as [d | e |]; [| intros [] ..].
  rewrite io_bind_lift_return. intros Hq.
  apply (proj2 (make_request_trace self "POST" "search" _ _ _ script eq_refl)) in Hq.
  eauto.
Qed.

Lemma query_database_sent self id filter_criteria sorts start_cursor page_size script q :
  In (Sent q) (snd (query_database self id filter_criteria sorts start_cursor
                      page_size script)) ->
  exists d, query_database_data filter_criteria sorts start_cursor page_size = Return d
            /\ q = {| req_method := "POST";
                      req_url := endpoint_url self
                                   ("databases/" ++ py_str id ++ "/query");
                      req_headers := headers self; req_params := VNone;
                      req_json := VDict d |}.
Proof.
  unfold query_database.
  destruct (query_database_data filter_criteria sorts start_cursor page_size)
    as [d | e |]; [| intros [] ..].
  rewrite io_bind_lift_return. intros Hq.
  apply (proj2 (make_request_trace self "POST" _ _ _ _ script eq_refl)) in Hq.
  eauto.
Qed.

Lemma get_block_children_sent self id start_cursor page_size script q :
  In (Sent q) (snd (get_block_children self id start_cursor page_size script)) ->
  exists d, get_block_children_params start_cursor page_size = Return d
            /\ q = {| req_method := "GET";
                      req_url := endpoint_url self
                                   ("blocks/" ++ py_str id ++ "/children");
                      req_headers := headers self; req_params := VDict d;
                      req_json := VNone |}.
Proof.
  unfold get_block_children.
  destruct (get_block_children_params start_cursor page_size)
    as [d | e |]; [| intros [] ..].
  rewrite io_bind_lift_return. intros Hq.
  apply (proj2 (make_request_trace self "GET" _ _ _ _ script eq_refl)) in Hq.
  eauto.
Qed.




(** ** The dispatcher *)

(** The [except Exception] clause leaves nothing to raise. *)
Lemma handle_call_tool_never_raises notion_client name arguments script e :
  fst (handle_call_tool notion_client name arguments script) <> Raise e.
Proof.
  unfold handle_call_tool. destruct notion_client as [client |]; [| discriminate].
  destruct (call_tool client name arguments script) as [[texts | e' |] evs];
    simpl; discriminate.
Qed.

(** C6.  With a client in place, a name that is none of the ten tools
    gets the one text ["Unknown tool: {name}"]; no client method runs,
    so nothing is sent, slept or logged. *)
Theorem unknown_tool
    (client : NotionClient) (name : string) (arguments : dict)
    (script : list exchange) :
  ~ In name tool_names ->
  handle_call_tool (Some client) name arguments script
    = (Return (text_result ("Unknown tool: " ++ name)), []).
Proof.
  intros Hname. unfold handle_call_tool, call_tool.
  repeat match goal with
         | |- context [(name =? ?s)%string] =>
             destruct (String.eqb_spec name s) as [-> | _];
             [exfalso; apply Hname; vm_compute; tauto |]
         end.
  reflexivity.
Qed.

Lemma unknown_tool_witness :
  handle_call_tool (Some Samples.client) "notion_delete_page" [("page_id", VStr "p")]
      [Replies Samples.ok]
    = (Return (text_result "Unknown tool: notion_delete_page"), []).
Proof.
  apply (unknown_tool Samples.client "notion_delete_page").
  vm_compute. intros H.
  repeat (destruct H as [H | H]; [discriminate H |]). exact H.
Defined.

Lemma bind_reply_events (m : io value) : snd (result <-- m ;; reply result) = snd m.
Proof.
  unfold io_bind. destruct (fst m); simpl; [apply app_nil_r | reflexivity ..].
Qed.

Lemma handle_call_tool_sent client name arguments script q :
  In (Sent q) (snd (handle_call_tool (Some client) name arguments script)) ->
  In (Sent q) (snd (call_tool client name arguments script)).
Proof.
  unfold handle_call_tool.
  destruct (call_tool client name arguments script) as [[texts | e |] evs];
    simpl; trivial.
  intros H. apply in_app_or in H as [H | [H | []]]; [exact H | discriminate H].
Qed.

(** The [try] block for [notion_create_page], once its three required
    arguments are there. *)
Lemma call_tool_create_page client arguments parent_type parent_id properties script :
  lookup "parent_type" arguments = Some parent_type ->
  lookup "parent_id" arguments = Some parent_id ->
  lookup "properties" arguments = Some properties ->
  call_tool client "notion_create_page" arguments script
  = (result <-- create_page client
        (if eq_str parent_type "database"
         then VDict [("type", VStr "database_id"); ("database_id", parent_id)]
         else VDict [("type", VStr "page_id"); ("page_id", parent_id)])
        properties (get arguments "children") script ;;
     reply result).
Proof.
  intros H1 H2 H3. unfold call_tool. cbn [String.eqb Ascii.eqb Bool.eqb].
  unfold subscript. rewrite H1, H2, H3.
  unfold io_bind at 1 2 3. unfold lift. cbn [fst snd app].
  symmetry. apply surjective_pairing.
Qed.

(** C7.  Every request that dispatching [notion_create_page] sends has
    as its ["parent"] exactly [{"type": "database_id", "database_id": X}]
    when [parent_type] is ["database"], and exactly
    [{"type": "page_id", "page_id": X}] when it is ["page"]; and with a
    client in place and the required [properties] given, the request is
    sent. *)
Theorem create_page_parent
    (notion_client : option NotionClient) (arguments : dict)
    (parent_type X : value) (script : list exchange) :
  lookup "parent_type" arguments = Some parent_type ->
  lookup "parent_id" arguments = Some X ->
  let events :=
    snd (handle_call_tool notion_client "notion_create_page" arguments script) in
  (parent_type = VStr "database" ->
   forall q, In (Sent q) events ->
     body_field q "parent"
     = Some (VDict [("type", VStr "database_id"); ("database_id", X)]))
  /\ (parent_type = VStr "page" ->
      forall q, In (Sent q) events ->
        body_field q "parent"
        = Some (VDict [("type", VStr "page_id"); ("page_id", X)]))
  /\ (forall client properties,
        notion_client = Some client ->
        lookup "properties" arguments = Some properties ->
        exists q evs, events = Sent q :: evs /\ req_method q = "POST"
                      /\ req_url q = endpoint_url client "pages").
Proof.
  intros Hpt Hid events.
  assert (Hsent : forall q, In (Sent q) events ->
            exists properties children,
              req_json q = VDict (create_page_data
                (if eq_str parent_type "database"
                 then VDict [("type", VStr "database_id"); ("database_id", X)]
                 else VDict [("type", VStr "page_id"); ("page_id", X)])
                properties children)).
  { intros q Hq. subst events.
    destruct notion_client as [client |]; [| destruct Hq].
    apply handle_call_tool_sent in Hq.
    destruct (lookup "properties" arguments) as [properties |] eqn:Hp.
    - rewrite (call_tool_create_page _ _ _ _ _ _ Hpt Hid Hp) in Hq.
      rewrite bind_reply_events in Hq.
      apply (proj2 (make_request_trace client "POST" "pages" _ VNone _ script
                      eq_refl)) in Hq.
      subst q. eexists _, _. reflexivity.
    - unfold call_tool in Hq. cbn [String.eqb Ascii.eqb Bool.eqb] in Hq.
      unfold subscript in Hq. rewrite Hpt, Hid, Hp in Hq. destruct Hq. }
  assert (Hparent : forall parent properties children,
            lookup "parent" (create_page_data parent properties children)
            = Some parent).
  { intros. unfold create_page_data, set_if.
    destruct (truthy children); reflexivity. }
  split; [| split].
  - intros -> q Hq. destruct (Hsent q Hq) as (p & c & Hj).
    unfold body_field. rewrite Hj. apply Hparent.
  - intros -> q Hq. destruct (Hsent q Hq) as (p & c & Hj).
    unfold body_field. rewrite Hj. apply Hparent.
  - intros client properties -> Hp. subst events.
    unfold handle_call_tool.
    rewrite (call_tool_create_page _ _ _ _ _ _ Hpt Hid Hp).
    destruct (make_request_trace client "POST" "pages"
                (VDict (create_page_data
                   (if eq_str parent_type "database"
                    then VDict [("type", VStr "database_id"); ("database_id", X)]
                    else VDict [("type", VStr "page_id"); ("page_id", X)])
                   properties (get arguments "children")))
                VNone _ script eq_refl) as [[evs He] _].
    fold (create_page client
            (if eq_str parent_type "database"
             then VDict [("type", VStr "database_id"); ("database_id", X)]
             else VDict [("type", VStr "page_id"); ("page_id", X)])
            properties (get arguments "children") script) in He.
    set (m := create_page _ _ _ _ _) in *.
    assert (Hb : snd (result <-- m ;; reply result) = Sent _ :: evs)
      by (rewrite bind_reply_events; exact He).
    destruct (fst (result <-- m ;; reply result)); rewrite Hb; simpl;
      eexists _, _; (split; [reflexivity |]); split; reflexivity.
Qed.

Lemma create_page_parent_witness :
  body_field Samples.page_request "parent"
    = Some (VDict [("type", VStr "database_id"); ("database_id", VStr "X")]).
Proof.
  apply (proj1 (create_page_parent (Some Samples.client) Samples.page_arguments
                  (VStr "database") (VStr "X") [Replies Samples.ok]
                  eq_refl eq_refl) eq_refl Samples.page_request).
  vm_compute. left. reflexivity.
Defined.

(** C5, as the code has it.  With a client in place, a call of a
    registered tool whose arguments lack a required key ends in the
    error text ["Error executing {name}: '{key}'"], which holds the tool
    name; [key] is the first required key that is missing, in the order
    the tool lists them, and nothing is sent.  With no client the guard
    answers first, with a text that does not hold the name.  In neither
    case does the dispatcher raise. *)
Theorem missing_required_argument
    (client : NotionClient) (t : Tool) (k : string) (arguments : dict)
    (script : list exchange) :
  In t handle_list_tools -> In k (required t) -> lookup k arguments = None ->
  (exists k',
      first_missing (required t) arguments = Some k'
      /\ In k' (required t) /\ lookup k' arguments = None
      /\ handle_call_tool (Some client) (name t) arguments script
         = (Return (text_result ("Error executing " ++ name t ++ ": " ++ repr_str k')),
            [Logged ("Error executing " ++ name t ++ ": " ++ repr_str k')])
      /\ contains (name t) ("Error executing " ++ name t ++ ": " ++ repr_str k') = true)
  /\ handle_call_tool None (name t) arguments script
     = (Return (text_result "Error: Notion client not initialized"), [])
  /\ forall notion_client e,
       fst (handle_call_tool notion_client (name t) arguments script) <> Raise e.
Proof.
  intros Ht Hk Hnone. split; [| split].
  - simpl in Ht.
    repeat (destruct Ht as [<- | Ht]; [|]); try contradiction;
      cbn in Hk;
      repeat (destruct Hk as [<- | Hk]; [|]); try contradiction;
      unfold handle_call_tool, call_tool;
      cbn [String.eqb Ascii.eqb Bool.eqb name];
      unfold subscript; rewrite ?Hnone;
      repeat match goal with
             | |- context [lookup ?key arguments] =>
                 let E := fresh "E" in
                 destruct (lookup key arguments) eqn:E
             end;
      try congruence;
      unfold io_bind, lift; cbn [fst snd app str_exn];
      (eexists; split; [| split; [| split; [| split; [reflexivity |]]]];
       [cbn;
        repeat match goal with
               | H : lookup _ arguments = _ |- _ => rewrite H
               end;
        reflexivity
       | vm_compute; tauto | assumption | vm_compute; reflexivity]).
  - reflexivity.
  - intros. apply handle_call_tool_never_raises.
Qed.

Lemma missing_required_argument_witness :
  handle_call_tool (Some Samples.client) "notion_create_database"
      [("parent_page_id", VStr "p1")] [Replies Samples.ok]
    = (Return (text_result "Error executing notion_create_database: 'title'"),
       [Logged "Error executing notion_create_database: 'title'"]).
Proof.
  destruct (missing_required_argument Samples.client MoreSamples.create_database_tool
              "properties" [("parent_page_id", VStr "p1")] [Replies Samples.ok])
    as [(k' & Hfirst & _ & _ & Heq & _) _].
  - do 3 right. left. reflexivity.
  - do 2 right. left. reflexivity.
  - reflexivity.
  - vm_compute in Hfirst. injection Hfirst as <-. exact Heq.
Defined.

(** C5 as the specification words it fails when no client was
    initialized: [notion_get_database] called without its required
    [database_id] then gets the guard's text, which does not hold the
    tool name. *)
Lemma missing_required_argument_without_client :
  In Samples.get_database_tool handle_list_tools
  /\ In "database_id" (required Samples.get_database_tool)
  /\ lookup "database_id" [] = None
  /\ handle_call_tool None (name Samples.get_database_tool) [] []
     = (Return (text_result "Error: Notion client not initialized"), [])
  /\ contains (name Samples.get_database_tool)
       "Error: Notion client not initialized" = false.
Proof.
  split; [right; left; reflexivity |].
  split; [left; reflexivity |].
  repeat split.
Qed.

(** ** Credentials *)

(** C8 on the code.  The broker answers 200 with a JSON object whose
    ["credentials"] hold no ["access_token"] and which has no top-level
    ["access_token"] either.  [_get_nango_token] takes the first branch
    and returns what [.get('access_token')] gives, [None]; no
    [NotionAuthError] is raised and the constructor builds a client whose
    token is [None] and whose header reads ["Bearer None"]. *)
Theorem nango_credentials_without_token
    (notion_version : string) (rest : list exchange) :
  _get_nango_token Samples.nango_env (Some "conn") (Some "notion")
      (Replies Samples.no_token_reply :: rest)
    = (Return VNone, [Sent Samples.broker_request])
  /\ __init__ Samples.nango_env None notion_version (Some "conn") (Some "notion")
       (Replies Samples.no_token_reply :: rest)
     = (Return {| notion_version := notion_version;
                  base_url := "https://api.notion.com/v1";
                  nango_connection_id := Some "conn";
                  nango_provider_config_key := Some "notion";
                  auth_token := VNone;
                  headers := [("Authorization", "Bearer None");
                              ("Notion-Version", notion_version);
                              ("Content-Type", "application/json")] |},
        [Sent Samples.broker_request]).
Proof. split; reflexivity. Qed.

Lemma io_bind_return {A B} (m : io A) (k : A -> io B) (a : A) :
  fst m = Return a -> fst (x <-- m ;; k x) = fst (k a).
Proof. intros H. unfold io_bind. rewrite H. reflexivity. Qed.

Lemma as_auth_error_return {A} (m : io A) (a : A) :
  fst m = Return a -> fst (as_auth_error m) = Return a.
Proof.
  intros H. unfold as_auth_error. rewrite H. exact H.
Qed.

(** A broker reply without error status and with a JSON body is handed
    back as it is. *)
Lemma get_connection_credentials_ok
    (env : environ) (id key : option string) (r : response) (j : value)
    (rest : list exchange) :
  truthy_opt (environ_get env "NANGO_BASE_URL") = true ->
  truthy_opt (environ_get env "NANGO_SECRET_KEY") = true ->
  error_status r = false ->
  content r = JsonBody j ->
  fst (get_connection_credentials env id key (Replies r :: rest)) = Return j.
Proof.
  intros Hb Hs He Hc. unfold get_connection_credentials.
  rewrite Hb, Hs. cbn [negb orb].
  rewrite (io_bind_return _ _ r) by reflexivity.
  unfold raise_for_status. rewrite (http_error_msg_ok r He).
  rewrite (io_bind_return _ _ tt) by reflexivity.
  unfold response_json. rewrite Hc. reflexivity.
Qed.

(** The same for every such reply: whenever the object has a
    ["credentials"] object without ["access_token"], the token is
    [None], whatever else the reply holds. *)
Lemma nango_credentials_without_token_any
    (env : environ) (id key : option string) (r : response)
    (d c : dict) (rest : list exchange) :
  truthy_opt (environ_get env "NANGO_BASE_URL") = true ->
  truthy_opt (environ_get env "NANGO_SECRET_KEY") = true ->
  error_status r = false ->
  content r = JsonBody (VDict d) ->
  lookup "credentials" d = Some (VDict c) ->
  lookup "access_token" c = None ->
  fst (_get_nango_token env id key (Replies r :: rest)) = Return VNone.
Proof.
  intros Hb Hs He Hc Hd Ht. unfold _get_nango_token.
  apply as_auth_error_return.
  rewrite (io_bind_return _ _ (VDict d))
    by (apply get_connection_credentials_ok; assumption).
  rewrite (io_bind_return _ _ true) by (simpl; rewrite Hd; reflexivity).
  rewrite (io_bind_return _ _ (VDict c))
    by (simpl; unfold subscript; rewrite Hd; reflexivity).
  simpl. unfold get. rewrite Ht. reflexivity.
Qed.

(** Where the reply has neither key the [else] branch does raise. *)
Lemma nango_credentials_bare (rest : list exchange) :
  _get_nango_token Samples.nango_env (Some "conn") (Some "notion")
      (Replies Samples.bare_reply :: rest)
    = (Raise (NotionAuthError
         "Failed to get credentials from Nango: No access token found in Nango credentials response"),
       [Sent Samples.broker_request]).
Proof. reflexivity. Qed.

(** C9.  When [auth_token] is missing or empty and the connection id and
    the provider config key (each one the argument or, failing that, the
    environment variable the constructor falls back to) are not both
    there, [__init__] raises [NotionAuthError] and nothing has been sent:
    the broker is not called. *)
Theorem client_needs_credentials
    (env : environ) (auth_token : option string) (notion_version : string)
    (nango_connection_id nango_provider_config_key : option string)
    (script : list exchange) :
  truthy_opt auth_token = false ->
  truthy_opt (or_opt nango_connection_id (environ_get env "NANGO_CONNECTION_ID"))
  && truthy_opt (or_opt nango_provider_config_key
                   (environ_get env "NANGO_INTEGRATION_ID")) = false ->
  __init__ env auth_token notion_version nango_connection_id
      nango_provider_config_key script
    = (Raise (NotionAuthError
         "Either auth_token or both nango_connection_id and nango_provider_config_key must be provided"),
       []).
Proof.
  intros Htoken Hids. unfold __init__. rewrite Htoken, Hids. reflexivity.
Qed.

Lemma client_needs_credentials_witness :
  __init__ Samples.nango_env None default_notion_version (Some "conn") None
      [Replies Samples.no_token_reply]
    = (Raise (NotionAuthError
         "Either auth_token or both nango_connection_id and nango_provider_config_key must be provided"),
       []).
Proof.
  apply (client_needs_credentials Samples.nango_env None default_notion_version
           (Some "conn") None [Replies Samples.no_token_reply]).
  - reflexivity.
  - reflexivity.
Defined.

(** * Further properties of [main.py] *)

(** ** The request primitive, edge cases *)

Lemma build_request_supported self method url data params :
  supported method = true ->
  exists req, build_request self method url data params = Return req.
Proof.
  unfold supported, build_request. cbv zeta.
  destruct (upper method =? "GET")%string; [eauto |].
  destruct (upper method =? "POST")%string; [eauto |].
  destruct (upper method =? "PATCH")%string; [eauto |].
  destruct (upper method =? "DELETE")%string; [eauto | discriminate].
Qed.

Lemma build_request_unsupported self method url data params :
  supported method = false ->
  build_request self method url data params
  = Raise (ValueError ("Unsupported HTTP method: " ++ method)).
Proof.
  unfold supported, build_request. cbv zeta.
  destruct (upper method =? "GET")%string; [discriminate |].
  destruct (upper method =? "POST")%string; [discriminate |].
  destruct (upper method =? "PATCH")%string; [discriminate |].
  destruct (upper method =? "DELETE")%string; [discriminate | reflexivity].
Qed.

Lemma retry_loop_raises self method url data params rc script e :
  rc < max_retries ->
  build_request self method url data params = Raise e ->
  retry_loop self method url data params rc script = (Raise e, []).
Proof.
  intros Hrc H. apply Z.ltb_lt in Hrc.
  destruct script; unfold retry_loop; rewrite Hrc, H; reflexivity.
Qed.

(** X1.  A method that is none of GET, POST, PATCH, DELETE (in any
    letter case) makes [_make_request] raise [ValueError] naming the
    method as given; it is raised as it is, not as [NotionAPIError], and
    nothing is sent, whatever the exchanges would have been. *)
Theorem make_request_unsupported_method
    (self : NotionClient) (method endpoint : string) (data params : value)
    (script : list exchange) :
  supported method = false ->
  _make_request self method endpoint data params script
  = (Raise (ValueError ("Unsupported HTTP method: " ++ method)), []).
Proof.
  intros H. unfold _make_request.
  apply retry_loop_raises; [unfold max_retries; lia |].
  apply build_request_unsupported. exact H.
Qed.

Lemma make_request_unsupported_method_witness :
  _make_request Samples.client "put" "pages/p" (VDict []) VNone [Replies Samples.ok]
  = (Raise (ValueError "Unsupported HTTP method: put"), []).
Proof.
  apply (make_request_unsupported_method Samples.client "put" "pages/p").
  reflexivity.
Defined.

(** X2.  Which part of the call goes on the wire depends on the method
    alone: every request of a call carries the upper-cased method, the
    URL of the endpoint and the client's headers; with GET only [params]
    is passed on ([data] is dropped), with POST and PATCH only [data] as
    JSON body ([params] is dropped), with DELETE neither. *)
Theorem make_request_channel
    (self : NotionClient) (method endpoint : string) (data params : value)
    (script : list exchange) (q : request) :
  In (Sent q) (snd (_make_request self method endpoint data params script)) ->
  req_method q = upper method
  /\ req_url q = endpoint_url self endpoint
  /\ req_headers q = headers self
  /\ (upper method = "GET" -> req_params q = params /\ req_json q = VNone)
  /\ (upper method = "POST" \/ upper method = "PATCH" ->
      req_params q = VNone /\ req_json q = data)
  /\ (upper method = "DELETE" -> req_params q = VNone /\ req_json q = VNone).
Proof.
  intros Hq.
  destruct (build_request self method (endpoint_url self endpoint) data params)
    as [req | e |] eqn:Hreq.
  - apply (proj2 (make_request_trace _ _ _ _ _ _ script Hreq)) in Hq. subst q.
    unfold build_request in Hreq. cbv zeta in Hreq.
    destruct (String.eqb_spec (upper method) "GET") as [E | E];
      [| destruct (String.eqb_spec (upper method) "POST") as [E1 | E1];
         [| destruct (String.eqb_spec (upper method) "PATCH") as [E2 | E2];
            [| destruct (String.eqb_spec (upper method) "DELETE") as [E3 | E3];
               [| discriminate Hreq]]]];
      injection Hreq as <-; cbn [req_method req_url req_headers req_params req_json];
      repeat split; try reflexivity;
      try (match goal with H : _ \/ _ |- _ => destruct H end);
      congruence.
  - unfold _make_request in Hq.
    rewrite retry_loop_unsupported in Hq; [destruct Hq |].
    intros req. rewrite Hreq. discriminate.
  - unfold _make_request in Hq.
    rewrite retry_loop_unsupported in Hq; [destruct Hq |].
    intros req. rewrite Hreq. discriminate.
Qed.

Lemma make_request_channel_witness :
  req_method Samples.me = "GET" /\ req_params Samples.me = VNone
  /\ req_json Samples.me = VNone.
Proof.
  destruct (make_request_channel Samples.client "get" "users/me"
              (VDict [("dropped", VInt 1)]) VNone [Replies Samples.ok] Samples.me)
    as (Hm & _ & _ & Hget & _).
  - vm_compute. left. reflexivity.
  - split; [exact Hm |]. apply Hget. reflexivity.
Defined.

(** The [try] block on a 429, by what [Retry-After] gives. *)
Lemma attempt_rate_limited_after (r : response) (n : Z) :
  status_code r = 429 -> retry_after r = Return n -> 0 <= n < sleep_limit ->
  attempt (Replies r) = (Return Continue, [Slept n]).
Proof.
  intros H429 Hr Hn. unfold attempt. rewrite H429. simpl.
  unfold retry_after in Hr. rewrite Hr.
  unfold io_bind, lift. cbn [fst snd]. rewrite (sleep_slept n Hn). reflexivity.
Qed.

(** X3.  A 429 reply whose [Retry-After] reads as a number of seconds
    that [time.sleep] takes (from 0 up to 9223372036; one second when
    the header is absent) is transparent and costs no attempt: the call
    goes on as the same call on the exchanges that follow, after the one
    request and that sleep. *)
Theorem rate_limit_is_transparent
    (self : NotionClient) (method endpoint : string) (data params : value)
    (req : request) (r : response) (n : Z) (rest : list exchange) :
  build_request self method (endpoint_url self endpoint) data params = Return req ->
  status_code r = 429 -> retry_after r = Return n -> 0 <= n < sleep_limit ->
  _make_request self method endpoint data params (Replies r :: rest)
  = (fst (_make_request self method endpoint data params rest),
     Sent req :: Slept n :: snd (_make_request self method endpoint data params rest))
  /\ (header_get (resp_headers r) "Retry-After" = None -> n = 1).
Proof.
  intros Hreq H429 Hr Hn. split.
  - unfold _make_request.
    rewrite (retry_loop_turn _ _ _ _ _ _ Hreq) by (unfold max_retries; lia).
    rewrite (attempt_rate_limited_after r n) by assumption. reflexivity.
  - intros Hh. unfold retry_after in Hr. rewrite Hh in Hr. congruence.
Qed.

Lemma rate_limit_is_transparent_witness :
  _make_request Samples.client "GET" "users/me" VNone VNone
      [Replies MoreSamples.throttled; Replies Samples.ok]
  = (Return Samples.bot, [Sent Samples.me; Slept 1; Sent Samples.me]).
Proof.
  apply (proj1 (rate_limit_is_transparent Samples.client "GET" "users/me" VNone VNone
                  Samples.me MoreSamples.throttled 1 [Replies Samples.ok]
                  eq_refl eq_refl eq_refl ltac:(unfold sleep_limit; lia))).
Defined.

Lemma int_of_digits_raises (bad e : exn) (t : string) :
  (exists msg, bad = ValueError msg) ->
  int_of_digits bad t = Raise e -> exists msg, e = ValueError msg.
Proof.
  intros [m ->]. unfold int_of_digits. intros He.
  repeat match type of He with
         | context [match ?x with _ => _ end] => destruct x
         end;
    try discriminate He; injection He as <-; eauto.
Qed.

(** What [int()] raises on text is a [ValueError]. *)
Lemma int_of_str_raises (s : string) (e : exn) :
  int_of_str s = Raise e -> exists msg, e = ValueError msg.
Proof.
  unfold int_of_str. cbv zeta.
  set (bad := ValueError _).
  assert (Hbad : exists msg, bad = ValueError msg) by (subst bad; eauto).
  clearbody bad. intros He.
  destruct (strip_space s) as [| c t];
    [exact (int_of_digits_raises bad e _ Hbad He) |].
  destruct c as [[] [] [] [] [] [] [] []];
    try exact (int_of_digits_raises bad e _ Hbad He).
  unfold bind in He.
  destruct (int_of_digits bad t) as [n | e' |] eqn:Hd; try discriminate He.
  injection He as <-. exact (int_of_digits_raises bad e' _ Hbad Hd).
Qed.

(** X4.  A 429 whose [Retry-After] [time.sleep] does not take ends the
    call at once, after the one request, without sleep or retry: the
    exception is no [RequestException], so it leaves [_make_request] as
    it is and not as [NotionAPIError].  It is the [ValueError] of [int()]
    when the header does not read as an integer (an HTTP date, say), the
    [ValueError] of [time.sleep()] for a negative number above
    -9223372037, and its [OverflowError] from 9223372037 seconds on, in
    either direction. *)
Theorem rate_limit_bad_retry_after
    (self : NotionClient) (method endpoint : string) (data params : value)
    (req : request) (r : response) (s : string) (rest : list exchange) :
  build_request self method (endpoint_url self endpoint) data params = Return req ->
  status_code r = 429 ->
  header_get (resp_headers r) "Retry-After" = Some s ->
  (forall e, int_of_str s = Raise e ->
     (exists msg, e = ValueError msg)
     /\ _make_request self method endpoint data params (Replies r :: rest)
        = (Raise e, [Sent req]))
  /\ (forall n, int_of_str s = Return n -> - sleep_limit < n < 0 ->
        _make_request self method endpoint data params (Replies r :: rest)
        = (Raise (ValueError "sleep length must be non-negative"), [Sent req]))
  /\ (forall n, int_of_str s = Return n -> sleep_limit <= Z.abs n ->
        _make_request self method endpoint data params (Replies r :: rest)
        = (Raise (OverflowError "timestamp too large to convert to C _PyTime_t"),
           [Sent req])).
Proof.
  intros Hreq H429 Hh. split; [| split].
  - intros e He. pose proof (int_of_str_raises _ _ He) as Hv. split.
    + exact Hv.
    + destruct Hv as [msg ->]. unfold _make_request.
      rewrite (retry_loop_turn _ _ _ _ _ _ Hreq) by (unfold max_retries; lia).
      unfold attempt. rewrite H429, Hh, He. reflexivity.
  - intros n Hn Hneg. unfold _make_request.
    rewrite (retry_loop_turn _ _ _ _ _ _ Hreq) by (unfold max_retries; lia).
    unfold attempt. rewrite H429, Hh, Hn. simpl.
    unfold io_bind, lift, sleep. cbn [fst snd].
    replace (sleep_limit <=? Z.abs n) with false by (symmetry; apply Z.leb_gt; lia).
    replace (n <? 0) with true by (symmetry; apply Z.ltb_lt; lia).
    reflexivity.
  - intros n Hn Hbig. unfold _make_request.
    rewrite (retry_loop_turn _ _ _ _ _ _ Hreq) by (unfold max_retries; lia).
    unfold attempt. rewrite H429, Hh, Hn. simpl.
    unfold io_bind, lift, sleep. cbn [fst snd].
    apply Z.leb_le in Hbig. rewrite Hbig. reflexivity.
Qed.

Lemma rate_limit_bad_retry_after_witness :
  _make_request Samples.client "GET" "users/me" VNone VNone
      [Replies MoreSamples.throttled_until; Replies Samples.ok]
  = (Raise (ValueError
       "invalid literal for int() with base 10: 'Wed, 21 Oct 2015 07:28:00 GMT'"),
     [Sent Samples.me])
  /\ _make_request Samples.client "GET" "users/me" VNone VNone
       [Replies MoreSamples.throttled_negative; Replies Samples.ok]
     = (Raise (ValueError "sleep length must be non-negative"), [Sent Samples.me])
  /\ _make_request Samples.client "GET" "users/me" VNone VNone
       [Replies MoreSamples.throttled_too_long; Replies Samples.ok]
     = (Raise (OverflowError "timestamp too large to convert to C _PyTime_t"),
        [Sent Samples.me]).
Proof.
  split; [| split].
  - apply (proj1 (rate_limit_bad_retry_after Samples.client "GET" "users/me"
                    VNone VNone Samples.me MoreSamples.throttled_until
                    "Wed, 21 Oct 2015 07:28:00 GMT" [Replies Samples.ok]
                    eq_refl eq_refl eq_refl)).
    reflexivity.
  - apply (proj1 (proj2 (rate_limit_bad_retry_after Samples.client "GET" "users/me"
                    VNone VNone Samples.me MoreSamples.throttled_negative
                    "-5" [Replies Samples.ok] eq_refl eq_refl eq_refl)) (-5)).
    + reflexivity.
    + unfold sleep_limit. lia.
  - apply (proj2 (proj2 (rate_limit_bad_retry_after Samples.client "GET" "users/me"
                    VNone VNone Samples.me MoreSamples.throttled_too_long
                    "9223372037" [Replies Samples.ok] eq_refl eq_refl eq_refl))
             9223372037).
    + reflexivity.
    + unfold sleep_limit. lia.
Defined.

Section RetryLoopMore.

Variable self : NotionClient.
Variables method url : string.
Variables data params : value.
Variable req : request.
Hypothesis supported_req : build_request self method url data params = Return req.

Local Abbreviation loop := (retry_loop self method url data params).

Lemma retry_loop_rate_limited_after (rc : Z) r n rest :
  rc < max_retries -> status_code r = 429 -> retry_after r = Return n ->
  0 <= n < sleep_limit ->
  loop rc (Replies r :: rest)
  = (fst (loop rc rest), Sent req :: Slept n :: snd (loop rc rest)).
Proof.
  intros Hrc H429 Hr Hn.
  rewrite (retry_loop_turn _ _ _ _ _ _ supported_req) by assumption.
  rewrite (attempt_rate_limited_after r n) by assumption. reflexivity.
Qed.

Lemma retry_loop_empty_body (rc : Z) r rest :
  rc < max_retries -> two_xx r = true -> content r = EmptyBody ->
  loop rc (Replies r :: rest) = (Return (VDict []), [Sent req]).
Proof.
  intros Hrc H2 Hc.
  rewrite (retry_loop_turn _ _ _ _ _ _ supported_req) by assumption.
  rewrite (attempt_success_empty r) by assumption. reflexivity.
Qed.

End RetryLoopMore.

(** X5.  A 2xx reply without content gives the empty dictionary, not an
    error: [response.json()] is not called on it.  This holds as well
    after one or two failed attempts. *)
Theorem make_request_empty_body
    (self : NotionClient) (method endpoint : string) (data params : value)
    (req : request) (fs : list (requests_error * string)) (r : response)
    (rest : list exchange) :
  build_request self method (endpoint_url self endpoint) data params = Return req ->
  (length fs < 3)%nat -> two_xx r = true -> content r = EmptyBody ->
  _make_request self method endpoint data params
      (map (fun f => Fails (fst f) (snd f)) fs ++ Replies r :: rest)
  = (Return (VDict []),
     (flat_map (fun _ => [Sent req; Slept 1]) fs ++ [Sent req])%list).
Proof.
  intros Hreq Hfs H2 Hc. unfold _make_request.
  destruct fs as [| [a1 b1] [| [a2 b2] [| [a3 b3] l]]];
    simpl in Hfs; try lia; simpl;
    repeat (rewrite (retry_loop_fails _ _ _ _ _ _ Hreq)
              by (unfold max_retries; lia); simpl);
    rewrite (retry_loop_empty_body _ _ _ _ _ _ Hreq _ r)
      by (try assumption; unfold max_retries; lia);
    reflexivity.
Qed.

Lemma make_request_empty_body_witness :
  _make_request Samples.client "DELETE" "blocks/b1" VNone VNone
      [Fails Timeout "timed out"; Replies MoreSamples.no_content]
  = (Return (VDict []),
     [Sent {| req_method := "DELETE";
              req_url := "https://api.notion.com/v1/blocks/b1";
              req_headers := headers Samples.client;
              req_params := VNone; req_json := VNone |};
      Slept 1;
      Sent {| req_method := "DELETE";
              req_url := "https://api.notion.com/v1/blocks/b1";
              req_headers := headers Samples.client;
              req_params := VNone; req_json := VNone |}]).
Proof.
  apply (make_request_empty_body Samples.client "DELETE" "blocks/b1" VNone VNone _
           [(Timeout, "timed out")] MoreSamples.no_content []).
  - reflexivity.
  - simpl. lia.
  - reflexivity.
  - reflexivity.
Defined.

(** X6.  Rate limiting is not counted against the three attempts: after
    any number [k] of 429 replies whose [Retry-After] is a number of
    seconds that [time.sleep] takes (0 to 9223372036), a 2xx reply with
    a JSON body is returned, [k + 1] requests having been sent with a
    sleep of [Retry-After] seconds after each 429. *)
Theorem rate_limits_then_success
    (self : NotionClient) (method endpoint : string) (data params : value)
    (req : request) (r ok : response) (n : Z) (k : nat) (j : value)
    (rest : list exchange) :
  build_request self method (endpoint_url self endpoint) data params = Return req ->
  status_code r = 429 -> retry_after r = Return n -> 0 <= n < sleep_limit ->
  two_xx ok = true -> content ok = JsonBody j ->
  _make_request self method endpoint data params
      (repeat (Replies r) k ++ Replies ok :: rest)
  = (Return j, (List.concat (repeat [Sent req; Slept n] k) ++ [Sent req])%list).
Proof.
  intros Hreq H429 Hr Hn H2 Hc. unfold _make_request.
  induction k as [| k IH]; simpl.
  - apply (retry_loop_success _ _ _ _ _ _ Hreq); try assumption.
    unfold max_retries. lia.
  - rewrite (retry_loop_rate_limited_after _ _ _ _ _ _ Hreq 0 r n)
      by (try assumption; unfold max_retries; lia).
    rewrite IH. reflexivity.
Qed.

Lemma rate_limits_then_success_witness :
  _make_request Samples.client "GET" "users/me" VNone VNone
      (repeat (Replies Samples.too_many_requests) 5 ++ [Replies Samples.ok])
  = (Return Samples.bot,
     (List.concat (repeat [Sent Samples.me; Slept 2] 5) ++ [Sent Samples.me])%list).
Proof.
  apply (rate_limits_then_success Samples.client "GET" "users/me" VNone VNone
           Samples.me Samples.too_many_requests Samples.ok 2 5 Samples.bot []).
  - reflexivity.
  - reflexivity.
  - reflexivity.
  - unfold sleep_limit. lia.
  - reflexivity.
  - reflexivity.
Defined.

(** ** The request primitive, invariants *)

Lemma count_sent_app (a b : list event) :
  count_sent (a ++ b) = (count_sent a + count_sent b)%nat.
Proof. unfold count_sent. rewrite filter_app, length_app. reflexivity. Qed.

Lemma count_sent_none (evs : list event) :
  (forall q, ~ In (Sent q) evs) -> count_sent evs = 0%nat.
Proof.
  induction evs as [| ev evs IH]; intros H; [reflexivity |].
  destruct ev as [q | n | m].
  - exfalso. apply (H q). left. reflexivity.
  - apply IH. intros q Hq. apply (H q). right. exact Hq.
  - apply IH. intros q Hq. apply (H q). right. exact Hq.
Qed.

Lemma attempt_count_sent (x : exchange) : count_sent (snd (attempt x)) = 0%nat.
Proof. apply count_sent_none. intros q. apply attempt_sends_nothing. Qed.

(** Only a 429 makes the [try] block end in [continue]. *)
Lemma attempt_continue (x : exchange) :
  fst (attempt x) = Return Continue -> rate_limited x = true.
Proof.
  destruct x as [cls msg | r]; simpl; [discriminate |].
  destruct (status_code r =? 429); [reflexivity |].
  unfold io_bind, lift. simpl.
  destruct (raise_for_status r); simpl; try discriminate.
  destruct (has_content r); simpl; [| discriminate].
  destruct (response_json r); simpl; discriminate.
Qed.

Lemma count_rate_limited_cons (x : exchange) (rest : list exchange) :
  (count_rate_limited rest <= count_rate_limited (x :: rest))%nat
  /\ (rate_limited x = true ->
      count_rate_limited (x :: rest) = S (count_rate_limited rest)).
Proof.
  unfold count_rate_limited. simpl. destruct (rate_limited x); simpl; split;
    try lia; try reflexivity; discriminate.
Qed.

Lemma retry_loop_count self method url data params (script : list exchange) :
  forall rc, 0 <= rc ->
    (count_sent (snd (retry_loop self method url data params rc script))
     <= Z.to_nat (max_retries - rc) + count_rate_limited script)%nat.
Proof.
  destruct (build_request self method url data params) as [req | e |] eqn:Hreq;
    [| intros rc _; rewrite retry_loop_unsupported;
       [apply Nat.le_0_l | intros q; rewrite Hreq; discriminate] ..].
  induction script as [| x rest IH]; intros rc Hrc0;
    destruct (Z.ltb_spec rc max_retries) as [Hrc | Hrc];
    try (rewrite (retry_loop_done _ _ _ _ _ _ _ Hrc); apply Nat.le_0_l).
  - rewrite (retry_loop_starved _ _ _ _ _ _ Hreq) by assumption.
    cbn [snd count_sent filter is_sent length]. unfold max_retries in *. lia.
  - rewrite (retry_loop_turn _ _ _ _ _ _ Hreq) by assumption.
    pose proof (attempt_count_sent x) as Hx.
    pose proof (attempt_continue x) as Hcont.
    destruct (count_rate_limited_cons x rest) as [Hle Hs].
    assert (Hone : (1 <= Z.to_nat (max_retries - rc))%nat)
      by (unfold max_retries in *; lia).
    destruct (fst (attempt x)) as [[| v] | e |].
    + cbn [snd]. change (Sent req :: ?l) with ([Sent req] ++ l)%list.
      rewrite !count_sent_app, Hx. specialize (IH rc Hrc0).
      rewrite (Hs (Hcont eq_refl)). cbn [count_sent filter is_sent length]. lia.
    + cbn [snd]. change (Sent req :: ?l) with ([Sent req] ++ l)%list.
      rewrite !count_sent_app, Hx. cbn [count_sent filter is_sent length]. lia.
    + assert (Hother : (count_sent (Sent req :: snd (attempt x))
                        <= Z.to_nat (max_retries - rc)
                           + count_rate_limited (x :: rest))%nat).
      { change (Sent req :: ?l) with ([Sent req] ++ l)%list.
        rewrite !count_sent_app, Hx. cbn [count_sent filter is_sent length]. lia. }
      destruct e; try exact Hother.
      destruct (Z.eqb_spec rc (max_retries - 1)) as [E | E]; [exact Hother |].
      cbn [snd]. change (Sent req :: ?l) with ([Sent req] ++ l)%list.
      rewrite !count_sent_app, Hx.
      change (Slept 1 :: ?l) with ([Slept 1] ++ l)%list.
      rewrite count_sent_app.
      specialize (IH (rc + 1) ltac:(lia)).
      replace (max_retries - (rc + 1)) with (max_retries - rc - 1) in IH by lia.
      cbn [count_sent filter is_sent length] in *.
      unfold max_retries in *. lia.
    + cbn [snd]. change (Sent req :: ?l) with ([Sent req] ++ l)%list.
      rewrite !count_sent_app, Hx. cbn [count_sent filter is_sent length]. lia.
Qed.

(** X7.  Whatever the exchanges, [_make_request] sends at most three
    requests plus one for every 429 reply among them; without 429
    replies that is at most three. *)
Theorem make_request_attempts_bounded
    (self : NotionClient) (method endpoint : string) (data params : value)
    (script : list exchange) :
  (count_sent (snd (_make_request self method endpoint data params script))
   <= 3 + count_rate_limited script)%nat.
Proof.
  unfold _make_request.
  apply (retry_loop_count self method (endpoint_url self endpoint) data params
           script 0). lia.
Qed.

Lemma build_request_raises self method url data params e :
  build_request self method url data params = Raise e -> is_requests_error e = false.
Proof.
  unfold build_request. cbv zeta. intros H.
  repeat match type of H with
         | context [if ?b then _ else _] => destruct b
         end; try discriminate H.
  injection H as <-. reflexivity.
Qed.

Lemma retry_loop_no_requests_error self method url data params
    (script : list exchange) :
  forall rc e,
    fst (retry_loop self method url data params rc script) = Raise e ->
    is_requests_error e = false.
Proof.
  destruct (build_request self method url data params) as [req | e0 |] eqn:Hreq.
  - induction script as [| x rest IH]; intros rc e;
      destruct (Z.ltb_spec rc max_retries) as [Hrc | Hrc];
      try (rewrite (retry_loop_done _ _ _ _ _ _ _ Hrc); discriminate).
    + rewrite (retry_loop_starved _ _ _ _ _ _ Hreq) by assumption. discriminate.
    + rewrite (retry_loop_turn _ _ _ _ _ _ Hreq) by assumption.
      destruct (fst (attempt x)) as [[| v] | e' |]; cbn [fst].
      * apply IH.
      * discriminate.
      * destruct e'; cbn [fst];
          try (intros H; injection H as <-; reflexivity).
        destruct (rc =? max_retries - 1); cbn [fst].
        -- intros H. injection H as <-. reflexivity.
        -- apply IH.
      * discriminate.
  - intros rc e. destruct (Z.ltb_spec rc max_retries) as [Hrc | Hrc].
    + rewrite (retry_loop_raises _ _ _ _ _ _ _ e0 Hrc Hreq). cbn [fst].
      intros H. injection H as <-. exact (build_request_raises _ _ _ _ _ _ Hreq).
    + rewrite (retry_loop_done _ _ _ _ _ _ _ Hrc). discriminate.
  - intros rc e. destruct (Z.ltb_spec rc max_retries) as [Hrc | Hrc].
    + destruct script; unfold retry_loop;
        apply Z.ltb_lt in Hrc; rewrite Hrc, Hreq; discriminate.
    + rewrite (retry_loop_done _ _ _ _ _ _ _ Hrc). discriminate.
Qed.

(** X8.  No exception of the [requests] library leaves [_make_request]:
    whatever the method, the payload and the exchanges, what it raises
    is never a [RequestException]; each one met on the way (network
    failure, HTTP error status, undecodable body) was either followed by
    a retry or turned into [NotionAPIError]. *)
Theorem make_request_raises_only
    (self : NotionClient) (method endpoint : string) (data params : value)
    (script : list exchange) (e : exn) :
  fst (_make_request self method endpoint data params script) = Raise e ->
  is_requests_error e = false.
Proof. unfold _make_request. apply retry_loop_no_requests_error. Qed.

Lemma make_request_raises_only_witness :
  is_requests_error (NotionAPIError "API request failed after 3 retries: reset")
  = false.
Proof.
  apply (make_request_raises_only Samples.client "GET" "users/me" VNone VNone
           [Fails ConnectionError "refused"; Fails Timeout "timed out";
            Fails ConnectionError "reset"]).
  reflexivity.
Defined.

(** ** The dispatcher on well-formed calls *)

Lemma io_bind_lift_raise {A B} (e : exn) (k : A -> io B) :
  (x <-- lift (Raise e) ;; k x) = (Raise e, []).
Proof. reflexivity. Qed.








(** ** What the dispatcher puts in the requests *)

Lemma handle_call_tool_first client name arguments script (m : io value) req evs :
  call_tool client name arguments script = (result <-- m ;; reply result) ->
  snd m = Sent req :: evs ->
  exists evs', snd (handle_call_tool (Some client) name arguments script)
               = Sent req :: evs'.
Proof.
  intros Hplan Hm. unfold handle_call_tool. rewrite Hplan.
  assert (Hb : snd (result <-- m ;; reply result) = Sent req :: evs)
    by (rewrite bind_reply_events; exact Hm).
  destruct (fst (result <-- m ;; reply result)); rewrite Hb; simpl; eauto.
Qed.

(** X11.  Every request that dispatching [notion_search] sends is a POST
    to [search] whose body holds
    ["filter": {"property": "object", "value": filter_type}] when a
    truthy [filter_type] was given and no ["filter"] at all otherwise
    (absent, [None] or empty). *)
Theorem search_filter_type
    (client : NotionClient) (arguments : dict) (script : list exchange)
    (q : request) :
  In (Sent q)
     (snd (handle_call_tool (Some client) "notion_search" arguments script)) ->
  req_method q = "POST" /\ req_url q = endpoint_url client "search"
  /\ (truthy (get arguments "filter_type") = true ->
      body_field q "filter"
      = Some (VDict [("property", VStr "object");
                     ("value", get arguments "filter_type")]))
  /\ (truthy (get arguments "filter_type") = false ->
      body_field q "filter" = None).
Proof.
  intros Hq. apply handle_call_tool_sent in Hq.
  unfold call_tool in Hq. cbn [String.eqb Ascii.eqb Bool.eqb] in Hq.
  rewrite bind_reply_events in Hq.
  apply search_sent in Hq as (d & Hd & ->).
  split; [reflexivity |]. split; [reflexivity |].
  unfold body_field. cbn [req_json].
  unfold search_data, set_if, set_page_size in Hd.
  destruct (truthy (get arguments "filter_type")); cbn [truthy] in Hd;
    destruct (truthy (get arguments "query"));
    destruct (truthy (get arguments "page_size"));
    try destruct (min_100 (get arguments "page_size"));
    try discriminate Hd; injection Hd as <-;
    split; intros H; try discriminate H; reflexivity.
Qed.

Lemma search_filter_type_witness :
  body_field {| req_method := "POST"; req_url := "https://api.notion.com/v1/search";
                req_headers := headers Samples.client; req_params := VNone;
                req_json := VDict [("query", VStr "notes");
                                   ("filter", VDict [("property", VStr "object");
                                                     ("value", VStr "page")])] |}
    "filter"
  = Some (VDict [("property", VStr "object"); ("value", VStr "page")]).
Proof.
  refine (proj1 (proj2 (proj2
    (search_filter_type Samples.client
       [("query", VStr "notes"); ("filter_type", VStr "page")]
       [Replies Samples.ok] _ _))) eq_refl).
  vm_compute. left. reflexivity.
Defined.

(** X12.  Dispatching [notion_create_database] with its three required
    arguments sends a POST to [databases] whose body is exactly the
    parent as a page reference, the title wrapped as one text item and
    the properties as given. *)
Theorem create_database_body
    (client : NotionClient) (arguments : dict)
    (parent_page_id title properties : value) (script : list exchange) :
  lookup "parent_page_id" arguments = Some parent_page_id ->
  lookup "title" arguments = Some title ->
  lookup "properties" arguments = Some properties ->
  exists evs,
    snd (handle_call_tool (Some client) "notion_create_database" arguments script)
    = Sent {| req_method := "POST";
              req_url := endpoint_url client "databases";
              req_headers := headers client;
              req_params := VNone;
              req_json := VDict
                [("parent", VDict [("type", VStr "page_id");
                                   ("page_id", parent_page_id)]);
                 ("title", VList [VDict [("type", VStr "text");
                                         ("text", VDict [("content", title)])]]);
                 ("properties", properties)] |} :: evs.
Proof.
  intros Hp Ht Hpr.
  destruct (make_request_trace client "POST" "databases"
              (VDict [("parent", VDict [("type", VStr "page_id");
                                        ("page_id", parent_page_id)]);
                      ("title", VList [VDict [("type", VStr "text");
                                              ("text", VDict [("content", title)])]]);
                      ("properties", properties)])
              VNone _ script eq_refl) as [[evs He] _].
  eapply handle_call_tool_first; [| exact He].
  unfold call_tool. cbn [String.eqb Ascii.eqb Bool.eqb].
  unfold subscript. rewrite Hp, Ht, Hpr.
  rewrite !io_bind_lift_return. reflexivity.
Qed.

Lemma create_database_body_witness :
  exists evs,
    snd (handle_call_tool (Some Samples.client) "notion_create_database"
           [("parent_page_id", VStr "p1"); ("title", VStr "Tasks");
            ("properties", VDict [])] [Replies Samples.ok])
    = Sent {| req_method := "POST";
              req_url := "https://api.notion.com/v1/databases";
              req_headers := headers Samples.client;
              req_params := VNone;
              req_json := VDict
                [("parent", VDict [("type", VStr "page_id"); ("page_id", VStr "p1")]);
                 ("title", VList [VDict [("type", VStr "text");
                                         ("text", VDict [("content", VStr "Tasks")])]]);
                 ("properties", VDict [])] |} :: evs.
Proof.
  apply (create_database_body Samples.client
           [("parent_page_id", VStr "p1"); ("title", VStr "Tasks");
            ("properties", VDict [])] (VStr "p1") (VStr "Tasks") (VDict [])
           [Replies Samples.ok]); reflexivity.
Defined.

(** The dispatcher's arguments, once looked up: a missing required key
    ends the [try] block with nothing sent. *)
Ltac lookup_arguments Hq :=
  unfold subscript in Hq;
  repeat match type of Hq with
         | context [match lookup ?k ?a with _ => _ end] =>
             destruct (lookup k a);
             [rewrite io_bind_lift_return in Hq | destruct Hq]
         end.

(** The one request of a method that builds no optional payload. *)
Ltac plain_request Hq :=
  match type of Hq with
  | In _ (snd (_make_request ?c ?m ?ep ?d ?p ?s)) =>
      apply (proj2 (make_request_trace c m ep d p _ s eq_refl)) in Hq
  end.

(** X13.  No tool passes a pagination cursor on: whatever the tool name
    and the arguments, a [start_cursor] argument included, no request
    the dispatcher sends has a ["start_cursor"] in its body or in its
    query parameters. *)
Theorem dispatcher_sends_no_cursor
    (client : NotionClient) (name : string) (arguments : dict)
    (script : list exchange) (q : request) :
  In (Sent q) (snd (handle_call_tool (Some client) name arguments script)) ->
  body_field q "start_cursor" = None /\ params_field q "start_cursor" = None.
Proof.
  intros Hq. apply handle_call_tool_sent in Hq. unfold call_tool in Hq.
  unfold body_field, params_field.
  repeat match type of Hq with
         | context [(name =? ?s)%string] =>
             destruct (String.eqb_spec name s) as [-> | _]; cbv iota in Hq
         end;
    try (destruct Hq; fail);
    lookup_arguments Hq; rewrite ?bind_reply_events in Hq.
  - apply search_sent in Hq as (d & Hd & ->). cbn [req_json req_params].
    unfold search_data, set_if, set_page_size in Hd. cbn [truthy] in Hd.
    repeat match type of Hd with
           | context [truthy ?v] => destruct (truthy v)
           | context [min_100 ?v] => destruct (min_100 v)
           end; try discriminate Hd; injection Hd as <-; split; reflexivity.
  - unfold get_database in Hq. plain_request Hq. subst q. split; reflexivity.
  - apply query_database_sent in Hq as (d & Hd & ->). cbn [req_json req_params].
    unfold query_database_data, set_if, set_page_size in Hd. cbn [truthy] in Hd.
    repeat match type of Hd with
           | context [truthy ?v] => destruct (truthy v)
           | context [min_100 ?v] => destruct (min_100 v)
           end; try discriminate Hd; injection Hd as <-; split; reflexivity.
  - unfold create_database in Hq. plain_request Hq. subst q. split; reflexivity.
  - unfold get_page in Hq. plain_request Hq. subst q. split; reflexivity.
  - unfold create_page in Hq. plain_request Hq. subst q.
    cbn [req_json req_params]. unfold create_page_data, set_if.
    destruct (truthy (get arguments "children")); split; reflexivity.
  - unfold update_page in Hq. plain_request Hq. subst q.
    cbn [req_json req_params]. unfold update_page_data.
    destruct (get arguments "archived"); split; reflexivity.
  - apply get_block_children_sent in Hq as (d & Hd & ->).
    cbn [req_json req_params].
    unfold get_block_children_params, set_if, set_page_size in Hd. cbn [truthy] in Hd.
    repeat match type of Hd with
           | context [truthy ?v] => destruct (truthy v)
           | context [min_100 ?v] => destruct (min_100 v)
           end; try discriminate Hd; injection Hd as <-; split; reflexivity.
  - unfold append_block_children in Hq. plain_request Hq. subst q.
    split; reflexivity.
  - unfold get_current_user in Hq. plain_request Hq. subst q. split; reflexivity.
Qed.

Lemma dispatcher_sends_no_cursor_witness :
  body_field {| req_method := "POST";
                req_url := "https://api.notion.com/v1/databases/d1/query";
                req_headers := headers Samples.client; req_params := VNone;
                req_json := VDict [("page_size", VInt 10)] |} "start_cursor" = None.
Proof.
  refine (proj1 (dispatcher_sends_no_cursor Samples.client "notion_query_database"
                   [("database_id", VStr "d1"); ("start_cursor", VStr "abc");
                    ("page_size", VInt 10)] [Replies Samples.ok] _ _)).
  vm_compute. left. reflexivity.
Defined.

(** ** [page_size], the other cases *)

(** X14.  A [page_size] that is truthy but neither an integer nor a
    boolean (a non-empty string, list or dictionary) makes [search],
    [query_database] and [get_block_children] raise the [TypeError] of
    [min] before any request is sent; through the dispatcher this comes
    back as an error text. *)
Theorem page_size_not_a_number
    (self : NotionClient) (v id query filter_criteria sorts start_cursor : value)
    (arguments : dict) (script : list exchange) :
  page_size_ok v = false ->
  let e := TypeError ("'<' not supported between instances of 'int' and '"
                      ++ type_name v ++ "'") in
  search self query filter_criteria sorts start_cursor v script = (Raise e, [])
  /\ query_database self id filter_criteria sorts start_cursor v script = (Raise e, [])
  /\ get_block_children self id start_cursor v script = (Raise e, [])
  /\ (get arguments "page_size" = v ->
      handle_call_tool (Some self) "notion_search" arguments script
      = (Return (text_result ("Error executing notion_search: " ++ str_exn e)),
         [Logged ("Error executing notion_search: " ++ str_exn e)])).
Proof.
  intros Hv e.
  assert (Hset : forall data, set_page_size data v = Raise e).
  { intros data. unfold set_page_size.
    destruct v as [| b | z | s | l | d]; cbn [page_size_ok] in Hv;
      try discriminate Hv; apply negb_false_iff in Hv; rewrite Hv; reflexivity. }
  repeat split.
  - unfold search, search_data. rewrite Hset. reflexivity.
  - unfold query_database, query_database_data. rewrite Hset. reflexivity.
  - unfold get_block_children, get_block_children_params. rewrite Hset. reflexivity.
  - intros Hget. unfold handle_call_tool, call_tool.
    cbn [String.eqb Ascii.eqb Bool.eqb]. rewrite Hget.
    unfold search, search_data. rewrite Hset. reflexivity.
Qed.

Lemma page_size_not_a_number_witness :
  handle_call_tool (Some Samples.client) "notion_search" [("page_size", VStr "50")]
      [Replies Samples.ok]
  = (Return (text_result
       "Error executing notion_search: '<' not supported between instances of 'int' and 'str'"),
     [Logged
        "Error executing notion_search: '<' not supported between instances of 'int' and 'str'"]).
Proof.
  apply (proj2 (proj2 (proj2
    (page_size_not_a_number Samples.client (VStr "50") VNone VNone VNone VNone VNone
       [("page_size", VStr "50")] [Replies Samples.ok] eq_refl)))).
  reflexivity.
Defined.



(** ** Credential resolution, the other paths *)

(** X16.  A non-empty static token wins: the constructor keeps it, sets
    the three headers from it and makes no call to the broker, whatever
    the broker identifiers and the environment are. *)
Theorem init_static_token_wins
    (env : environ) (token notion_version : string)
    (nango_connection_id nango_provider_config_key : option string)
    (script : list exchange) :
  token <> "" ->
  __init__ env (Some token) notion_version nango_connection_id
      nango_provider_config_key script
  = (Return {| notion_version := notion_version;
               base_url := "https://api.notion.com/v1";
               nango_connection_id :=
                 or_opt nango_connection_id (environ_get env "NANGO_CONNECTION_ID");
               nango_provider_config_key :=
                 or_opt nango_provider_config_key
                   (environ_get env "NANGO_INTEGRATION_ID");
               auth_token := VStr token;
               headers := [("Authorization", "Bearer " ++ token);
                           ("Notion-Version", notion_version);
                           ("Content-Type", "application/json")] |},
     []).
Proof.
  intros Ht. unfold __init__. cbn [truthy_opt].
  apply String.eqb_neq in Ht. rewrite Ht. reflexivity.
Qed.

Lemma init_static_token_wins_witness :
  fst (__init__ Samples.nango_env (Some "secret") default_notion_version
         (Some "conn") (Some "notion") [Replies Samples.no_token_reply])
  = Return {| notion_version := default_notion_version;
              base_url := "https://api.notion.com/v1";
              nango_connection_id := Some "conn";
              nango_provider_config_key := Some "notion";
              auth_token := VStr "secret";
              headers := headers Samples.client |}.
Proof.
  rewrite (init_static_token_wins Samples.nango_env "secret" default_notion_version
             (Some "conn") (Some "notion") [Replies Samples.no_token_reply]).
  - reflexivity.
  - discriminate.
Defined.

(** The constructor on the broker path. *)
Lemma init_broker_path env auth_token notion_version id key script :
  truthy_opt auth_token = false ->
  truthy_opt (or_opt id (environ_get env "NANGO_CONNECTION_ID")) = true ->
  truthy_opt (or_opt key (environ_get env "NANGO_INTEGRATION_ID")) = true ->
  __init__ env auth_token notion_version id key script
  = (token <-- _get_nango_token env
                 (or_opt id (environ_get env "NANGO_CONNECTION_ID"))
                 (or_opt key (environ_get env "NANGO_INTEGRATION_ID")) script ;;
     ret {| notion_version := notion_version;
            base_url := "https://api.notion.com/v1";
            nango_connection_id := or_opt id (environ_get env "NANGO_CONNECTION_ID");
            nango_provider_config_key :=
              or_opt key (environ_get env "NANGO_INTEGRATION_ID");
            auth_token := token;
            headers := [("Authorization", "Bearer " ++ py_str token);
                        ("Notion-Version", notion_version);
                        ("Content-Type", "application/json")] |}).
Proof.
  intros Ha Hi Hk. unfold __init__. rewrite Ha, Hi, Hk. reflexivity.
Qed.

Lemma nango_environment_missing_any env id key script :
  truthy_opt (environ_get env "NANGO_BASE_URL")
  && truthy_opt (environ_get env "NANGO_SECRET_KEY") = false ->
  fst (_get_nango_token env id key script)
  = Raise (NotionAuthError
      "Failed to get credentials from Nango: NANGO_BASE_URL and NANGO_SECRET_KEY environment variables must be set").
Proof.
  intros H. unfold _get_nango_token, get_connection_credentials.
  replace (negb (truthy_opt (environ_get env "NANGO_BASE_URL"))
           || negb (truthy_opt (environ_get env "NANGO_SECRET_KEY")))
    with true
    by (destruct (truthy_opt (environ_get env "NANGO_BASE_URL")),
                 (truthy_opt (environ_get env "NANGO_SECRET_KEY"));
        simpl in *; congruence).
  reflexivity.
Qed.

(** X17.  With the broker identifiers there but [NANGO_BASE_URL] or
    [NANGO_SECRET_KEY] missing or empty, [_get_nango_token] raises
    [NotionAuthError] carrying the message of
    [get_connection_credentials], and no request has been made. *)
Theorem nango_environment_missing
    (env : environ) (id key : option string) (script : list exchange) :
  truthy_opt (environ_get env "NANGO_BASE_URL")
  && truthy_opt (environ_get env "NANGO_SECRET_KEY") = false ->
  _get_nango_token env id key script
  = (Raise (NotionAuthError
       "Failed to get credentials from Nango: NANGO_BASE_URL and NANGO_SECRET_KEY environment variables must be set"),
     []).
Proof.
  intros H. unfold _get_nango_token, get_connection_credentials.
  replace (negb (truthy_opt (environ_get env "NANGO_BASE_URL"))
           || negb (truthy_opt (environ_get env "NANGO_SECRET_KEY")))
    with true
    by (destruct (truthy_opt (environ_get env "NANGO_BASE_URL")),
                 (truthy_opt (environ_get env "NANGO_SECRET_KEY"));
        simpl in *; congruence).
  reflexivity.
Qed.

Lemma nango_environment_missing_witness :
  _get_nango_token [("NANGO_BASE_URL", "https://api.nango.dev")]
    (Some "conn") (Some "notion") [Replies MoreSamples.top_token_reply]
  = (Raise (NotionAuthError
       "Failed to get credentials from Nango: NANGO_BASE_URL and NANGO_SECRET_KEY environment variables must be set"),
     []).
Proof.
  apply (nango_environment_missing [("NANGO_BASE_URL", "https://api.nango.dev")]).
  reflexivity.
Defined.

Lemma get_connection_credentials_call env id key script :
  truthy_opt (environ_get env "NANGO_BASE_URL") = true ->
  truthy_opt (environ_get env "NANGO_SECRET_KEY") = true ->
  get_connection_credentials env id key script
  = (response <-- call (broker_call env id key) script ;;
     _ <-- lift (raise_for_status response) ;;
     lift (response_json response)).
Proof.
  intros Hb Hs. unfold get_connection_credentials. rewrite Hb, Hs. reflexivity.
Qed.

(** X18.  The broker is asked once and never again: when the call fails
    at network level, or is answered with a 4xx or 5xx status, token
    resolution raises [NotionAuthError] with that error's message after
    the one request, whatever exchanges would follow. *)
Theorem nango_call_not_retried
    (env : environ) (id key : option string) (cls : requests_error) (msg : string)
    (r : response) (rest : list exchange) :
  truthy_opt (environ_get env "NANGO_BASE_URL") = true ->
  truthy_opt (environ_get env "NANGO_SECRET_KEY") = true ->
  error_status r = true ->
  _get_nango_token env id key (Fails cls msg :: rest)
  = (Raise (NotionAuthError ("Failed to get credentials from Nango: " ++ msg)),
     [Sent (broker_call env id key)])
  /\ _get_nango_token env id key (Replies r :: rest)
     = (Raise (NotionAuthError ("Failed to get credentials from Nango: "
                                ++ http_error_msg r)),
        [Sent (broker_call env id key)]).
Proof.
  intros Hb Hs He. unfold _get_nango_token.
  rewrite !(get_connection_credentials_call _ _ _ _ Hb Hs). split.
  - reflexivity.
  - unfold call, as_auth_error, io_bind, lift. cbn [fst snd].
    unfold raise_for_status. rewrite (http_error_msg_error r He).
    reflexivity.
Qed.

Lemma nango_call_not_retried_witness :
  _get_nango_token Samples.nango_env (Some "conn") (Some "notion")
      [Replies MoreSamples.unavailable; Replies MoreSamples.top_token_reply]
  = (Raise (NotionAuthError
       "Failed to get credentials from Nango: 503 Server Error: Service Unavailable for url: https://api.nango.dev/connection/conn"),
     [Sent Samples.broker_request]).
Proof.
  apply (proj2 (nango_call_not_retried Samples.nango_env (Some "conn") (Some "notion")
                  ConnectionError "refused" MoreSamples.unavailable
                  [Replies MoreSamples.top_token_reply] eq_refl eq_refl eq_refl)).
Defined.

Lemma get_connection_credentials_reply env id key r j rest :
  truthy_opt (environ_get env "NANGO_BASE_URL") = true ->
  truthy_opt (environ_get env "NANGO_SECRET_KEY") = true ->
  error_status r = false -> content r = JsonBody j ->
  get_connection_credentials env id key (Replies r :: rest)
  = (Return j, [Sent (broker_call env id key)]).
Proof.
  intros Hb Hs He Hc. rewrite (get_connection_credentials_call _ _ _ _ Hb Hs).
  unfold call, io_bind, lift. cbn [fst snd].
  unfold raise_for_status, response_json.
  rewrite (http_error_msg_ok r He), Hc. reflexivity.
Qed.

(** X19.  From a broker reply without error status whose body is a JSON
    object, the token is what [credentials.access_token] holds whenever
    the object has a ["credentials"] object, a top-level
    ["access_token"] being ignored then; without ["credentials"] it is
    the top-level ["access_token"]; with neither key [NotionAuthError]
    is raised.  One request is made in each case. *)
Theorem nango_token_lookup
    (env : environ) (id key : option string) (r : response) (d : dict)
    (rest : list exchange) :
  truthy_opt (environ_get env "NANGO_BASE_URL") = true ->
  truthy_opt (environ_get env "NANGO_SECRET_KEY") = true ->
  error_status r = false -> content r = JsonBody (VDict d) ->
  (forall c, lookup "credentials" d = Some (VDict c) ->
     _get_nango_token env id key (Replies r :: rest)
     = (Return (get c "access_token"), [Sent (broker_call env id key)]))
  /\ (forall t, lookup "credentials" d = None -> lookup "access_token" d = Some t ->
        _get_nango_token env id key (Replies r :: rest)
        = (Return t, [Sent (broker_call env id key)]))
  /\ (lookup "credentials" d = None -> lookup "access_token" d = None ->
      _get_nango_token env id key (Replies r :: rest)
      = (Raise (NotionAuthError
           "Failed to get credentials from Nango: No access token found in Nango credentials response"),
         [Sent (broker_call env id key)])).
Proof.
  intros Hb Hs He Hc. unfold _get_nango_token.
  rewrite (get_connection_credentials_reply _ _ _ _ _ _ Hb Hs He Hc).
  repeat split.
  - intros c Hd. unfold as_auth_error, io_bind, lift.
    repeat (cbn [fst snd py_in py_subscript py_get app]; unfold subscript;
            rewrite ?Hd).
    reflexivity.
  - intros t Hd Ht. unfold as_auth_error, io_bind, lift.
    repeat (cbn [fst snd py_in py_subscript py_get app]; unfold subscript;
            rewrite ?Hd, ?Ht).
    reflexivity.
  - intros Hd Ht. unfold as_auth_error, io_bind, lift.
    repeat (cbn [fst snd py_in py_subscript py_get app]; unfold subscript;
            rewrite ?Hd, ?Ht).
    reflexivity.
Qed.

Lemma nango_token_lookup_witness :
  _get_nango_token Samples.nango_env (Some "conn") (Some "notion")
      [Replies MoreSamples.nested_token_reply]
  = (Return (VStr "nested"), [Sent Samples.broker_request])
  /\ _get_nango_token Samples.nango_env (Some "conn") (Some "notion")
       [Replies MoreSamples.top_token_reply]
     = (Return (VStr "top"), [Sent Samples.broker_request]).
Proof.
  split.
  - apply (proj1 (nango_token_lookup Samples.nango_env (Some "conn") (Some "notion")
                    MoreSamples.nested_token_reply _ [] eq_refl eq_refl eq_refl
                    eq_refl) [("access_token", VStr "nested")]).
    reflexivity.
  - apply (proj1 (proj2 (nango_token_lookup Samples.nango_env (Some "conn")
                           (Some "notion") MoreSamples.top_token_reply _ []
                           eq_refl eq_refl eq_refl eq_refl)) (VStr "top"));
      reflexivity.
Defined.

Lemma as_auth_error_raises {A} (m : io A) (e : exn) :
  fst (as_auth_error m) = Raise e -> exists msg, e = NotionAuthError msg.
Proof.
  unfold as_auth_error. destruct m as [[a | e' |] evs]; simpl; try discriminate.
  intros H. injection H as <-. eauto.
Qed.

Lemma init_raises_auth_error env auth_token notion_version id key script e :
  fst (__init__ env auth_token notion_version id key script) = Raise e ->
  exists msg, e = NotionAuthError msg.
Proof.
  unfold __init__.
  destruct (truthy_opt auth_token); [discriminate |].
  destruct (truthy_opt _ && truthy_opt _).
  - unfold io_bind.
    destruct (fst (_get_nango_token env _ _ script)) as [t | e' |] eqn:Ht;
      cbn [fst]; try discriminate.
    intros H. injection H as <-.
    apply (as_auth_error_raises _ _ Ht).
  - cbn [fst io_bind raise]. intros H. injection H as <-. eauto.
Qed.

(** X20.  Whatever the arguments, the environment and the broker's
    answer, the only exception the constructor raises is
    [NotionAuthError]: every failure on the way to the token (network,
    HTTP status, undecodable body, a reply of the wrong shape) is turned
    into one. *)
Theorem init_raises_only
    (env : environ) (auth_token : option string) (notion_version : string)
    (nango_connection_id nango_provider_config_key : option string)
    (script : list exchange) (e : exn) :
  fst (__init__ env auth_token notion_version nango_connection_id
         nango_provider_config_key script) = Raise e ->
  exists msg, e = NotionAuthError msg.
Proof. apply init_raises_auth_error. Qed.

Lemma init_raises_only_witness :
  exists msg,
    NotionAuthError
      "Failed to get credentials from Nango: 503 Server Error: Service Unavailable for url: https://api.nango.dev/connection/conn"
    = NotionAuthError msg.
Proof.
  apply (init_raises_only Samples.nango_env None default_notion_version
           (Some "conn") (Some "notion") [Replies MoreSamples.unavailable]).
  reflexivity.
Defined.

Lemma as_auth_error_events {A} (m : io A) : snd (as_auth_error m) = snd m.
Proof. unfold as_auth_error. destruct (fst m); reflexivity. Qed.

Lemma io_bind_events_silent {A B} (m : io A) (k : A -> io B) :
  (forall a, snd (k a) = []) -> snd (x <-- m ;; k x) = snd m.
Proof.
  intros Hk. unfold io_bind. destruct (fst m); cbn [snd]; try reflexivity.
  rewrite Hk. apply app_nil_r.
Qed.

(** What token resolution puts on the wire: the one broker request when
    the broker's URL and key are configured, nothing otherwise. *)
Lemma get_nango_token_events env id key script :
  snd (_get_nango_token env id key script)
  = if truthy_opt (environ_get env "NANGO_BASE_URL")
       && truthy_opt (environ_get env "NANGO_SECRET_KEY")
    then [Sent (broker_call env id key)] else [].
Proof.
  unfold _get_nango_token. rewrite as_auth_error_events.
  rewrite io_bind_events_silent.
  - unfold get_connection_credentials.
    destruct (truthy_opt (environ_get env "NANGO_BASE_URL"));
      destruct (truthy_opt (environ_get env "NANGO_SECRET_KEY"));
      cbn [negb orb andb]; try reflexivity.
    fold (broker_call env id key).
    rewrite io_bind_events_silent.
    + destruct script as [| [cls msg | r] rest]; reflexivity.
    + intros response. apply io_bind_events_silent. reflexivity.
  - intros credentials. rewrite io_bind_events_silent; [reflexivity |].
    intros [|].
    + apply io_bind_events_silent. reflexivity.
    + rewrite io_bind_events_silent; [reflexivity |]. intros [|]; reflexivity.
Qed.

(** X21.  The network activity of the constructor, in full: it makes the
    one request to the broker exactly when no static token is given,
    both broker identifiers are there and the broker's URL and key are
    configured; in every other case it makes none.  It never sleeps and
    never retries, whatever the reply. *)
Theorem init_requests
    (env : environ) (auth_token : option string) (notion_version : string)
    (nango_connection_id nango_provider_config_key : option string)
    (script : list exchange) :
  let id := or_opt nango_connection_id (environ_get env "NANGO_CONNECTION_ID") in
  let key := or_opt nango_provider_config_key
               (environ_get env "NANGO_INTEGRATION_ID") in
  snd (__init__ env auth_token notion_version nango_connection_id
         nango_provider_config_key script)
  = if negb (truthy_opt auth_token) && truthy_opt id && truthy_opt key
       && truthy_opt (environ_get env "NANGO_BASE_URL")
       && truthy_opt (environ_get env "NANGO_SECRET_KEY")
    then [Sent (broker_call env id key)] else [].
Proof.
  intros id key. unfold __init__. fold id. fold key.
  rewrite io_bind_events_silent by reflexivity.
  destruct (truthy_opt auth_token); [reflexivity |].
  destruct (truthy_opt id); [| reflexivity].
  destruct (truthy_opt key); [| reflexivity].
  cbn [negb andb]. apply get_nango_token_events.
Qed.

Lemma or_opt_same (a : option string) : or_opt a a = a.
Proof. unfold or_opt. destruct (truthy_opt a); reflexivity. Qed.

(** X22.  [initialize_client] passes no static token, so the global
    client can only come from the broker: whenever it returns a client,
    exactly one request was made, the broker call built from
    [NANGO_CONNECTION_ID], [NANGO_INTEGRATION_ID], [NANGO_BASE_URL] and
    [NANGO_SECRET_KEY], and nothing was logged. *)
Theorem initialize_client_uses_broker
    (env : environ) (script : list exchange) (client : NotionClient) :
  fst (initialize_client env script) = Return client ->
  snd (initialize_client env script)
  = [Sent (broker_call env (environ_get env "NANGO_CONNECTION_ID")
             (environ_get env "NANGO_INTEGRATION_ID"))]
  /\ nango_connection_id client = environ_get env "NANGO_CONNECTION_ID"
  /\ nango_provider_config_key client = environ_get env "NANGO_INTEGRATION_ID".
Proof.
  unfold initialize_client.
  set (made := __init__ env None default_notion_version _ _ script).
  assert (Hev : snd made
                = if truthy_opt (environ_get env "NANGO_CONNECTION_ID")
                     && truthy_opt (environ_get env "NANGO_INTEGRATION_ID")
                     && truthy_opt (environ_get env "NANGO_BASE_URL")
                     && truthy_opt (environ_get env "NANGO_SECRET_KEY")
                  then [Sent (broker_call env (environ_get env "NANGO_CONNECTION_ID")
                                (environ_get env "NANGO_INTEGRATION_ID"))]
                  else []).
  { subst made. unfold __init__. rewrite !or_opt_same.
    rewrite io_bind_events_silent by reflexivity. cbn [truthy_opt].
    destruct (truthy_opt (environ_get env "NANGO_CONNECTION_ID")); [| reflexivity].
    destruct (truthy_opt (environ_get env "NANGO_INTEGRATION_ID")); [| reflexivity].
    cbn [andb]. apply get_nango_token_events. }
  destruct (fst made) as [c | e |] eqn:Hfst; cbn [fst]; intros H;
    try rewrite Hfst in H; try discriminate H.
  injection H as <-. rewrite Hev.
  subst made. unfold __init__ in Hfst. rewrite !or_opt_same in Hfst.
  cbn [truthy_opt] in Hfst.
  destruct (truthy_opt (environ_get env "NANGO_CONNECTION_ID"));
    [| discriminate Hfst].
  destruct (truthy_opt (environ_get env "NANGO_INTEGRATION_ID"));
    [| discriminate Hfst].
  cbn [andb] in Hfst. unfold io_bind in Hfst.
  destruct (fst (_get_nango_token env _ _ script)) as [t | e |] eqn:Ht;
    try discriminate Hfst.
  unfold ret in Hfst. cbn [fst] in Hfst.
  injection Hfst as <-. cbn [nango_connection_id nango_provider_config_key].
  assert (Hcfg : truthy_opt (environ_get env "NANGO_BASE_URL")
                 && truthy_opt (environ_get env "NANGO_SECRET_KEY") = true).
  { destruct (truthy_opt (environ_get env "NANGO_BASE_URL")
              && truthy_opt (environ_get env "NANGO_SECRET_KEY")) eqn:E;
      [reflexivity |].
    rewrite (nango_environment_missing_any env _ _ script E) in Ht.
    discriminate Ht. }
  apply andb_true_iff in Hcfg as [-> ->]. repeat split.
Qed.

Lemma initialize_client_uses_broker_witness :
  snd (initialize_client MoreSamples.broker_env [Replies MoreSamples.top_token_reply])
  = [Sent Samples.broker_request].
Proof.
  apply (initialize_client_uses_broker MoreSamples.broker_env
           [Replies MoreSamples.top_token_reply]
           {| notion_version := default_notion_version;
              base_url := "https://api.notion.com/v1";
              nango_connection_id := Some "conn";
              nango_provider_config_key := Some "notion";
              auth_token := VStr "top";
              headers := [("Authorization", "Bearer top");
                          ("Notion-Version", default_notion_version);
                          ("Content-Type", "application/json")] |}).
  reflexivity.
Defined.

(** X23.  When [initialize_client] fails, what it raises is the
    constructor's [NotionAuthError], unchanged, and the last thing it did
    was to log ["Failed to initialize Notion client: {message}"]. *)
Theorem initialize_client_failure_logged
    (env : environ) (script : list exchange) (e : exn) :
  fst (initialize_client env script) = Raise e ->
  exists msg evs,
    e = NotionAuthError msg
    /\ snd (initialize_client env script)
       = (evs ++ [Logged ("Failed to initialize Notion client: " ++ msg)])%list
    /\ forall q, In (Sent q) evs ->
         q = broker_call env (environ_get env "NANGO_CONNECTION_ID")
               (environ_get env "NANGO_INTEGRATION_ID").
Proof.
  unfold initialize_client.
  set (made := __init__ env None default_notion_version _ _ script).
  assert (Hev : forall q, In (Sent q) (snd made) ->
            q = broker_call env (environ_get env "NANGO_CONNECTION_ID")
                  (environ_get env "NANGO_INTEGRATION_ID")).
  { subst made. unfold __init__. rewrite !or_opt_same.
    rewrite io_bind_events_silent by reflexivity. cbn [truthy_opt].
    destruct (truthy_opt (environ_get env "NANGO_CONNECTION_ID")); [| intros q []].
    destruct (truthy_opt (environ_get env "NANGO_INTEGRATION_ID")); [| intros q []].
    cbn [andb]. rewrite get_nango_token_events.
    destruct (_ && _); [| intros q []].
    intros q [H | []]. congruence. }
  destruct (fst made) as [c | e' |] eqn:Hfst; cbn [fst]; intros H;
    try rewrite Hfst in H; try discriminate H.
  injection H as <-.
  destruct (init_raises_auth_error env None default_notion_version
              (environ_get env "NANGO_CONNECTION_ID")
              (environ_get env "NANGO_INTEGRATION_ID") script e' Hfst) as [msg ->].
  exists msg, (snd made). repeat split. exact Hev.
Qed.

Lemma initialize_client_failure_logged_witness :
  exists msg evs,
    NotionAuthError
      "Either auth_token or both nango_connection_id and nango_provider_config_key must be provided"
    = NotionAuthError msg
    /\ snd (initialize_client Samples.nango_env [Replies MoreSamples.top_token_reply])
       = (evs ++ [Logged ("Failed to initialize Notion client: " ++ msg)])%list
    /\ forall q, In (Sent q) evs ->
         q = broker_call Samples.nango_env None None.
Proof.
  apply (initialize_client_failure_logged Samples.nango_env
           [Replies MoreSamples.top_token_reply]).
  reflexivity.
Defined.

(** ** [update_page] through the dispatcher *)


